(** * Lukas-VINE: the dosage calculation engine

    A shallow embedding of the calculator module of the repository
    (the part of [src/plant-utils.js] headed "Calculators Utility Module",
    which the unit tests load as [calculators-utils.js]):
    [calculateMix], [calculateGranular], [formatMixResultsHTML] and
    [formatGranularResultsHTML], together with the fragment of ECMAScript
    they rest on (IEEE-754 binary64 numbers, truthiness, [typeof],
    [Number.prototype.toFixed] and the number-to-string conversion used by
    template literals).

    JavaScript numbers are modelled by Rocq's primitive binary64 floats,
    whose operations are specified by [Prim2SF] and the [SpecFloat]
    functions. *)

From Stdlib Require Import ZArith Floats String Ascii List Bool Lia.
From Stdlib Require Import DecimalString.
Import ListNotations.

Set Warnings "-inexact-float".

(** ** The ECMAScript fragment *)

Module JS.

#[local] Open Scope float_scope.

(** A JavaScript Number. *)
Definition number := float.

(** The primitive values an object property may hold
    ([VUndefined] also stands for a missing property). *)
Inductive value :=
| VUndefined
| VNull
| VBool (b : bool)
| VNumber (x : number)
| VString (s : string).

(** [typeof v] *)
Definition typeof (v : value) : string :=
  match v with
  | VUndefined => "undefined"
  | VNull => "object"
  | VBool _ => "boolean"
  | VNumber _ => "number"
  | VString _ => "string"
  end.

(** ToBoolean on numbers: [+0], [-0] and [NaN] are falsy. *)
Definition truthy_number (x : number) : bool :=
  negb (is_zero x || is_nan x).

(** ToBoolean on strings: only the empty string is falsy. *)
Definition truthy_string (s : string) : bool :=
  match s with
  | EmptyString => false
  | String _ _ => true
  end.

(** The global [isNaN] on a Number. *)
Definition isNaN (x : number) : bool := is_nan x.

(** [Number.isFinite] *)
Definition isFinite (x : number) : bool := is_finite x.

(** *** Number to string *)

Section Decimal.
#[local] Open Scope string_scope.
#[local] Open Scope Z_scope.

(** The decimal digits of a non-negative integer (["0"] for zero). *)
Definition decimal (n : Z) : string :=
  NilZero.string_of_uint (N.to_uint (Z.to_N n)).

(** [count] copies of the code unit ["0"]. *)
Fixpoint zeros (count : nat) : string :=
  match count with
  | O => ""
  | S c => String "0" (zeros c)
  end.

(** The first [n] code units of [s], and the rest. *)
Fixpoint take (n : nat) (s : string) : string :=
  match n, s with
  | S n', String c s' => String c (take n' s')
  | _, _ => ""
  end.

Fixpoint drop (n : nat) (s : string) : string :=
  match n, s with
  | S n', String _ s' => drop n' s'
  | _, _ => s
  end.

(** A positive rational [num / den], with [den > 0]. *)
Definition frac : Type := Z * Z.

(** The real value [m * 2^e] of a finite float. *)
Definition frac_of_float (m : positive) (e : Z) : frac :=
  (Zpos m * 2 ^ Z.max e 0, 2 ^ Z.max (- e) 0).

(** [q * 10^j] *)
Definition scale10 (q : frac) (j : Z) : frac :=
  let '(num, den) := q in
  if 0 <=? j then (num * 10 ^ j, den) else (num, den * 10 ^ (- j)).

(** [q < 10^n] *)
Definition below_pow10 (q : frac) (n : Z) : bool :=
  let '(num, den) := scale10 q (- n) in num <? den.

(** The integer [n] with [10^(n-1) <= q < 10^n], searched from the
    estimate [n0]; the estimate taken below is off by at most two. *)
Fixpoint exp10_down (fuel : nat) (q : frac) (n : Z) : Z :=
  match fuel with
  | O => n
  | S fuel' => if below_pow10 q (n - 1) then exp10_down fuel' q (n - 1) else n
  end.

Fixpoint exp10_up (fuel : nat) (q : frac) (n : Z) : Z :=
  match fuel with
  | O => n
  | S fuel' => if below_pow10 q n then n else exp10_up fuel' q (n + 1)
  end.

Definition exp10 (m : positive) (e : Z) : Z :=
  let q := frac_of_float m e in
  let n0 := (Z.log2 (Zpos m) + e) * 30103 / 100000 in
  exp10_up 700 q (exp10_down 700 q n0).

(** The rounding interval of the float [m * 2^e], in units of [2^(e-2)]
    (the float itself is [4 * m] units): a real strictly between the two
    bounds rounds to the float, and so do the bounds when [m] is even (a tie
    goes to the even mantissa). Below the float the interval is half as wide
    when the float is a power of two above the subnormal range. *)
Definition interval_lo (m : positive) (e : Z) : Z :=
  if (Zpos m =? 2 ^ 52) && (-1074 <? e) then 4 * Zpos m - 1 else 4 * Zpos m - 2.

Definition interval_hi (m : positive) : Z := 4 * Zpos m + 2.

(** [10^(n-k) / 2^(e-2)]: the value of one unit of the last of [k] decimal
    digits, in units of [2^(e-2)]. *)
Definition digit_unit (e n k : Z) : frac :=
  scale10 (2 ^ Z.max (2 - e) 0, 2 ^ Z.max (e - 2) 0) (n - k).

(** Does [s * 10^(n-k)] round to the float [m * 2^e]? *)
Definition rounds_to (m : positive) (e n k s : Z) : bool :=
  let '(tn, td) := digit_unit e n k in
  let a := s * tn in
  let lo := interval_lo m e * td in
  let hi := interval_hi m * td in
  ((lo <? a) && (a <? hi)) || (Z.even (Zpos m) && ((a =? lo) || (a =? hi))).

(** The distance between [s * 10^(n-k)] and the float, up to a factor that
    depends on [e], [n] and [k] only. *)
Definition distance (m : positive) (e n k s : Z) : Z :=
  let '(tn, td) := digit_unit e n k in
  Z.abs (s * tn - 4 * Zpos m * td).

(** The [k]-digit decimals next to the float [m * 2^e], where
    [10^(n-1) <= m * 2^e < 10^n]: the one that rounds to the float, the
    closer one when both do, the even one when they are as close. The
    result is a pair [(s, n')] that stands for [s * 10^(n'-k)]. *)
Definition shortest_at (m : positive) (e n k : Z) : option (Z * Z) :=
  let '(vn, vd) := scale10 (frac_of_float m e) (k - n) in
  let lo := vn / vd in
  let hi := lo + 1 in
  let norm s := if s =? 10 ^ k then (s / 10, n + 1) else (s, n) in
  match rounds_to m e n k lo, rounds_to m e n k hi with
  | true, true =>
      let dl := distance m e n k lo in
      let dh := distance m e n k hi in
      if dl <? dh then Some (lo, n)
      else if dh <? dl then Some (norm hi)
      else if Z.even lo then Some (lo, n) else Some (norm hi)
  | true, false => Some (lo, n)
  | false, true => Some (norm hi)
  | false, false => None
  end.

(** The least [k] for which some [k]-digit decimal rounds to the float,
    with its digits [s] and exponent [n]: the triple [(n, k, s)] of
    Number::toString. Seventeen digits always suffice for a binary64. *)
Fixpoint shortest (fuel : nat) (m : positive) (e n k : Z) : Z * Z * Z :=
  match fuel with
  | O => let '(vn, vd) := scale10 (frac_of_float m e) (k - n) in (n, k, vn / vd)
  | S fuel' =>
      match shortest_at m e n k with
      | Some (s, n') => (n', k, s)
      | None => shortest fuel' m e n (k + 1)
      end
  end.

(** The sign and the digits of a decimal exponent, as in ["e+21"]. *)
Definition exponent_part (x : Z) : string :=
  let sign := if x <? 0 then "-" else "+" in
  ("e" ++ sign ++ decimal (Z.abs x))%string.

(** Number::toString for a positive finite number given by [(n, k, s)]. *)
Definition layout (n k s : Z) : string :=
  let digits := decimal s in
  let n' := Z.to_nat n in
  if (k <=? n) && (n <=? 21) then
    let pad := zeros (Z.to_nat (n - k)) in (digits ++ pad)%string
  else if (0 <? n) && (n <=? 21) then
    (take n' digits ++ "." ++ drop n' digits)%string
  else if (-6 <? n) && (n <=? 0) then
    let pad := zeros (Z.to_nat (- n)) in ("0." ++ pad ++ digits)%string
  else if k =? 1 then
    (digits ++ exponent_part (n - 1))%string
  else
    (take 1 digits ++ "." ++ drop 1 digits ++ exponent_part (n - 1))%string.

(** Number::toString(x), radix 10: what a template literal or string
    concatenation makes of a Number. *)
Definition NumberToString (x : number) : string :=
  match Prim2SF x with
  | S754_nan => "NaN"
  | S754_zero _ => "0"
  | S754_infinity s => if s then "-Infinity" else "Infinity"
  | S754_finite s m e =>
      let '(n, k, d) := shortest 17 m e (exp10 m e) 1 in
      let sign := if s then "-" else "" in
      (sign ++ layout n k d)%string
  end.

(** The integer nearest to [q * 10^f], the larger one of two. *)
Definition nearest_scaled (q : frac) (f : Z) : Z :=
  let '(num, den) := scale10 q f in (2 * num + den) / (2 * den).

(** The digits of [n / 10^f] with exactly [f] digits after the point. *)
Definition fixed_layout (n : Z) (f : nat) : string :=
  let m := decimal n in
  match f with
  | O => m
  | S _ =>
      let pad := zeros (f + 1 - String.length m)%nat in
      let m := if (String.length m <=? f)%nat then (pad ++ m)%string else m in
      let k := (String.length m - f)%nat in
      (take k m ++ "." ++ drop k m)%string
  end.

(** [x.toFixed(f)] for [0 <= f <= 100] (the calculators pass 0 and 2). *)
Definition toFixed (x : number) (f : nat) : string :=
  match Prim2SF x with
  | S754_nan | S754_infinity _ => NumberToString x
  | S754_zero _ => fixed_layout 0 f
  | S754_finite s m e =>
      let q := frac_of_float m e in
      if below_pow10 q 21 then
        let sign := if s then "-" else "" in
        (sign ++ fixed_layout (nearest_scaled q (Z.of_nat f)) f)%string
      else NumberToString x
  end.

End Decimal.

End JS.

(** ** The calculators *)

Module Calc.

Import JS.
#[local] Open Scope string_scope.
#[local] Open Scope float_scope.

(** *** Data *)

(** One entry of [chemicalsData]. [id] and [name] are text, [mixRate] is
    optional free text; [defaultRatePerGallon] is whatever the catalog
    holds, and the calculator inspects it with [typeof]. *)
Record chemical := {
  id : string;
  name : string;
  defaultRatePerGallon : value;
  mixRate : option string
}.

(** One entry of [mixItems]; [hasStoredRate] is the tag. *)
Inductive mix_item :=
| FallbackItem (item_id item_name labelRate : string)
| ComputedItem (item_id item_name : string) (ratePerGallon flOz ml : number).

Definition hasStoredRate (item : mix_item) : bool :=
  match item with
  | FallbackItem _ _ _ => false
  | ComputedItem _ _ _ _ _ => true
  end.

Definition item_id (item : mix_item) : string :=
  match item with
  | FallbackItem i _ _ | ComputedItem i _ _ _ _ => i
  end.

Definition item_name (item : mix_item) : string :=
  match item with
  | FallbackItem _ n _ | ComputedItem _ n _ _ _ => n
  end.

(** The success shape of [calculateMix]. *)
Record mix_result := {
  tankSize : number;
  sprayVolume : number;
  estimatedCoverageSqFt : number;
  mixItems : list mix_item;
  mixText : string
}.

(** The success shape of [calculateGranular]. *)
Record granular_result := {
  productName : string;
  areaSqFt : number;
  areaThousands : number;
  ratePerThousandSqFt : number;
  totalLbs : number
}.

(** What a calculator returns: [{ error: msg }] or a success shape. *)
Inductive result (A : Type) :=
| Error (msg : string)
| Success (a : A).
Arguments Error {A} msg.
Arguments Success {A} a.

(** What a formatter does: return a string, or throw a TypeError (a
    property read on [undefined]). *)
Inductive outcome :=
| Returns (html : string)
| ThrowsTypeError.

(** *** Constants *)

Definition FL_OZ_TO_ML : number := 29.57.
Definition SPRAY_VOLUME_PER_1000_SQFT : number := 1.

(** *** calculateMix *)

(** The body of the [forEach] callback: push one item on [mixItems]. The
    rate is a [VNumber] exactly when its [typeof] is ["number"], and only
    then is it compared with zero. *)
Definition pushMixItem (tankSizeGallons : number)
    (mixItems : list mix_item) (chem : chemical) : list mix_item :=
  let fallback :=
    FallbackItem chem.(id) chem.(name)
      (match chem.(mixRate) with
       | Some rate => if truthy_string rate then rate
                      else "Check the product label for exact rates."
       | None => "Check the product label for exact rates."
       end) in
  match chem.(defaultRatePerGallon) with
  | VNumber rate =>
      if rate <=? 0 then mixItems ++ [fallback]
      else
        let flOz := rate * tankSizeGallons in
        let ml := flOz * FL_OZ_TO_ML in
        mixItems ++ [ComputedItem chem.(id) chem.(name) rate flOz ml]
  | _ => mixItems ++ [fallback]
  end.

(** One line of [mixText]. *)
Definition mixTextLine (item : mix_item) : string :=
  match item with
  | ComputedItem _ name ratePerGallon flOz ml =>
      name ++ ": " ++ toFixed flOz 2 ++ " fl oz (~" ++ toFixed ml 0
        ++ " mL) at " ++ NumberToString ratePerGallon ++ " fl oz/gal"
  | FallbackItem _ name _ =>
      (* not reached: the filter keeps the items with a stored rate *)
      name
  end.

(** [Array.prototype.join] on strings. *)
Fixpoint join (sep : string) (parts : list string) : string :=
  match parts with
  | [] => ""
  | [part] => part
  | part :: rest => part ++ sep ++ join sep rest
  end.

(** The line feed of ['\n']. *)
Definition LF : string := String (ascii_of_nat 10) "".

(** [calculateMix(tankSizeGallons, chemicalsData)]. An argument that is
    [undefined] (omitted) is [None]; [chemicalsData] is [None] when it is
    not an array. *)
Definition calculateMix (tankSizeGallons : option number)
    (chemicalsData : option (list chemical)) : result mix_result :=
  match tankSizeGallons with
  | None => Error "Enter a valid tank size in gallons."
  | Some tankSizeGallons =>
      if negb (truthy_number tankSizeGallons) || (tankSizeGallons <=? 0) then
        Error "Enter a valid tank size in gallons."
      else
        match chemicalsData with
        | None => Error "Select at least one chemical."
        | Some chemicalsData =>
            if (List.length chemicalsData =? 0)%nat then
              Error "Select at least one chemical."
            else
              let sprayVolume := SPRAY_VOLUME_PER_1000_SQFT in
              let estimatedCoverageSqFt := tankSizeGallons * 1000 in
              let mixItems :=
                fold_left (pushMixItem tankSizeGallons) chemicalsData [] in
              Success {|
                tankSize := tankSizeGallons;
                sprayVolume := sprayVolume;
                estimatedCoverageSqFt := estimatedCoverageSqFt;
                mixItems := mixItems;
                mixText :=
                  join LF (map mixTextLine (filter hasStoredRate mixItems))
              |}
        end
  end.

(** *** calculateGranular *)

(** [calculateGranular(areaSqFt, ratePerThousandSqFt, productName = '')];
    an omitted argument is [None]. *)
Definition calculateGranular (areaSqFt ratePerThousandSqFt : option number)
    (productName : option string) : result granular_result :=
  let productName :=
    match productName with Some text => text | None => "" end in
  match areaSqFt with
  | None => Error "Enter a valid area in square feet."
  | Some areaSqFt =>
      if negb (truthy_number areaSqFt) || (areaSqFt <=? 0) then
        Error "Enter a valid area in square feet."
      else
        let rate_error := Error
          "No stored application rate for the selected product. Please refer to the product label." in
        match ratePerThousandSqFt with
        | None => rate_error
        | Some ratePerThousandSqFt =>
            if negb (truthy_number ratePerThousandSqFt)
               || (ratePerThousandSqFt <=? 0)
               || isNaN ratePerThousandSqFt then rate_error
            else
              let areaThousands := areaSqFt / 1000 in
              let totalLbs := areaThousands * ratePerThousandSqFt in
              Success {|
                productName := productName;
                areaSqFt := areaSqFt;
                areaThousands := areaThousands;
                ratePerThousandSqFt := ratePerThousandSqFt;
                totalLbs := totalLbs
              |}
        end
  end.

(** *** The result formatters

    Strings are sequences of UTF-8 bytes; the formatters' templates hold two
    characters outside ASCII, which take several bytes each. *)

(** The [forEach] callback of [formatMixResultsHTML]: append one [<li>]. *)
Definition appendMixItem (html : string) (item : mix_item) : string :=
  match item with
  | FallbackItem _ name labelRate =>
      html ++ "<li>" ++ name ++ ": " ++ labelRate ++ "</li>"
  | ComputedItem _ name ratePerGallon flOz ml =>
      html ++ "<li>" ++ LF
        ++ "        " ++ name ++ ": " ++ toFixed flOz 2 ++ " fl oz (≈ "
        ++ toFixed ml 0 ++ " mL)" ++ LF
        ++ "        at " ++ NumberToString ratePerGallon ++ " fl oz per gal."
        ++ LF
        ++ "      </li>"
  end.

(** The object a formatter is handed: [{ error }], a success shape, or any
    object with some of their properties. A property that is missing reads
    as [undefined], here [None]. *)
Module MixObject.
Record t := {
  error : option string;
  tankSize : option number;
  sprayVolume : option number;
  estimatedCoverageSqFt : option number;
  mixItems : option (list mix_item);
  mixText : option string
}.
End MixObject.

Module GranularObject.
Record t := {
  error : option string;
  productName : option string;
  areaSqFt : option number;
  areaThousands : option number;
  ratePerThousandSqFt : option number;
  totalLbs : option number
}.
End GranularObject.

(** The object literal each calculator returns. *)
Definition mixObject (results : result mix_result) : MixObject.t :=
  match results with
  | Error msg =>
      {| MixObject.error := Some msg;
         MixObject.tankSize := None;
         MixObject.sprayVolume := None;
         MixObject.estimatedCoverageSqFt := None;
         MixObject.mixItems := None;
         MixObject.mixText := None |}
  | Success res =>
      {| MixObject.error := None;
         MixObject.tankSize := Some res.(tankSize);
         MixObject.sprayVolume := Some res.(sprayVolume);
         MixObject.estimatedCoverageSqFt := Some res.(estimatedCoverageSqFt);
         MixObject.mixItems := Some res.(mixItems);
         MixObject.mixText := Some res.(mixText) |}
  end.

Definition granularObject (results : result granular_result)
    : GranularObject.t :=
  match results with
  | Error msg =>
      {| GranularObject.error := Some msg;
         GranularObject.productName := None;
         GranularObject.areaSqFt := None;
         GranularObject.areaThousands := None;
         GranularObject.ratePerThousandSqFt := None;
         GranularObject.totalLbs := None |}
  | Success res =>
      {| GranularObject.error := None;
         GranularObject.productName := Some res.(productName);
         GranularObject.areaSqFt := Some res.(areaSqFt);
         GranularObject.areaThousands := Some res.(areaThousands);
         GranularObject.ratePerThousandSqFt := Some res.(ratePerThousandSqFt);
         GranularObject.totalLbs := Some res.(totalLbs) |}
  end.

(** A Number property interpolated in a template literal. *)
Definition interpolate (property : option number) : string :=
  match property with
  | Some x => NumberToString x
  | None => "undefined"
  end.

(** ToBoolean on a string property. *)
Definition truthy_property (property : option string) : bool :=
  match property with
  | Some text => truthy_string text
  | None => false
  end.

(** [formatMixResultsHTML(results)]. A truthy [error] is returned as it is.
    Otherwise the summary is assembled; [toFixed] read on a missing
    [estimatedCoverageSqFt], or [forEach] on a missing [mixItems], throws. *)
Definition formatMixResultsHTML (results : MixObject.t) : outcome :=
  if truthy_property results.(MixObject.error) then
    Returns (match results.(MixObject.error) with
             | Some msg => msg
             | None => ""
             end)
  else
    match results.(MixObject.estimatedCoverageSqFt) with
    | None => ThrowsTypeError
    | Some estimatedCoverageSqFt =>
        let html :=
          LF ++ "    <p><strong>Tank size:</strong> "
            ++ interpolate results.(MixObject.tankSize) ++ " gallons</p>" ++ LF
            ++ "    <p><strong>Spray volume:</strong> "
            ++ interpolate results.(MixObject.sprayVolume)
            ++ " gal per 1,000 sq ft</p>" ++ LF
            ++ "    <p><strong>Estimated coverage:</strong> "
            ++ toFixed estimatedCoverageSqFt 0 ++ " sq ft</p>" ++ LF
            ++ "  " in
        let html :=
          html ++ "<p><strong>Chemicals and amounts:</strong></p><ul>" in
        match results.(MixObject.mixItems) with
        | None => ThrowsTypeError
        | Some mixItems =>
            let html := fold_left appendMixItem mixItems html in
            let html := html ++ "</ul>" in
            Returns html
        end
    end.

(** [formatGranularResultsHTML(results)] *)
Definition formatGranularResultsHTML (results : GranularObject.t) : outcome :=
  if truthy_property results.(GranularObject.error) then
    Returns (match results.(GranularObject.error) with
             | Some msg => msg
             | None => ""
             end)
  else
    let html := "" in
    let html :=
      if truthy_property results.(GranularObject.productName) then
        html ++ "<p><strong>Product:</strong> "
          ++ match results.(GranularObject.productName) with
             | Some text => text
             | None => ""
             end
          ++ "</p>"
      else html in
    match results.(GranularObject.areaSqFt),
          results.(GranularObject.areaThousands),
          results.(GranularObject.totalLbs) with
    | Some areaSqFt, Some areaThousands, Some totalLbs =>
        let html :=
          html ++ LF
            ++ "    <p><strong>Area:</strong> " ++ toFixed areaSqFt 0
            ++ " sq ft (" ++ toFixed areaThousands 2
            ++ " × 1,000 sq ft)</p>" ++ LF
            ++ "    <p><strong>Rate:</strong> "
            ++ interpolate results.(GranularObject.ratePerThousandSqFt)
            ++ " lbs per 1,000 sq ft</p>" ++ LF
            ++ "    <p><strong>Total product needed:</strong> "
            ++ toFixed totalLbs 2 ++ " lbs</p>" ++ LF
            ++ "  " in
        Returns html
    | _, _, _ => ThrowsTypeError
    end.

End Calc.

(** ** Vocabulary of the statements *)

Module Props.

Import JS Calc.
#[local] Open Scope string_scope.
#[local] Open Scope float_scope.

(** A strictly positive number ([+Infinity] included, [NaN] excluded). *)
Definition strictly_positive (x : number) : Prop := (0 <? x) = true.

(** An argument that is absent, zero or negative. *)
Definition absent_zero_or_negative (arg : option number) : Prop :=
  match arg with
  | None => True
  | Some x => is_zero x = true \/ (x <? 0) = true
  end.

(** An argument that is absent, zero, negative or [NaN]. *)
Definition absent_zero_negative_or_NaN (arg : option number) : Prop :=
  match arg with
  | None => True
  | Some x => is_zero x = true \/ (x <? 0) = true \/ is_nan x = true
  end.

(** The two error messages of each calculator. *)
Definition tank_error : string := "Enter a valid tank size in gallons.".
Definition chemical_error : string := "Select at least one chemical.".
Definition area_error : string := "Enter a valid area in square feet.".
Definition rate_error : string :=
  "No stored application rate for the selected product. Please refer to the product label.".

(** The label text of a product without a stored rate. *)
Definition label_fallback : string := "Check the product label for exact rates.".

(** The label of a fallback item: the product's [mixRate], or the stock
    text when [mixRate] is absent or empty; never the empty string. *)
Definition labelFor (chem : chemical) : string :=
  match chem.(mixRate) with
  | Some (String c rest) => String c rest
  | _ => label_fallback
  end.

(** The numeric fields of an item, of a mix result, of a granular result. *)
Definition item_numbers (item : mix_item) : list number :=
  match item with
  | FallbackItem _ _ _ => []
  | ComputedItem _ _ ratePerGallon flOz ml => [ratePerGallon; flOz; ml]
  end.

Definition mix_numbers (res : mix_result) : list number :=
  [res.(tankSize); res.(sprayVolume); res.(estimatedCoverageSqFt)]
    ++ flat_map item_numbers res.(mixItems).

Definition granular_numbers (res : granular_result) : list number :=
  [res.(areaSqFt); res.(areaThousands); res.(ratePerThousandSqFt);
   res.(totalLbs)].

(** No number of the list is NaN; every number of the list is finite. *)
Definition none_NaN (xs : list number) : Prop :=
  Forall (fun x => isNaN x = false) xs.

Definition all_finite (xs : list number) : bool := forallb isFinite xs.

(** The rate echoed by a computed item is the stored rate of a product of
    the list. *)
Definition echoes_stored_rate (chemicalsData : list chemical)
    (item : mix_item) : Prop :=
  match item with
  | FallbackItem _ _ _ => True
  | ComputedItem _ _ ratePerGallon _ _ =>
      exists chem, In chem chemicalsData /\
        chem.(defaultRatePerGallon) = VNumber ratePerGallon
  end.

(** [hay.includes(needle)] *)
Fixpoint includes (needle hay : string) : bool :=
  prefix needle hay ||
  match hay with
  | EmptyString => false
  | String _ rest => includes needle rest
  end.

(** Does the character occur in the string? *)
Fixpoint has_char (c : ascii) (s : string) : bool :=
  match s with
  | EmptyString => false
  | String c' rest => Ascii.eqb c c' || has_char c rest
  end.

(** Does every character of the string pass the test? *)
Fixpoint all_chars (test : ascii -> bool) (s : string) : bool :=
  match s with
  | EmptyString => true
  | String c rest => test c && all_chars test rest
  end.

(** The characters a rendered Number is made of: digits, point, signs,
    the exponent mark and the letters of [Infinity] and [NaN]. *)
Definition numeric_char (c : ascii) : bool :=
  has_char c "0123456789.-+eInfityNa".

(** The three lines every granular summary holds, and the product line. *)
Definition area_line (res : granular_result) : string :=
  "<p><strong>Area:</strong> " ++ toFixed res.(areaSqFt) 0 ++ " sq ft ("
    ++ toFixed res.(areaThousands) 2 ++ " × 1,000 sq ft)</p>".

Definition rate_line (res : granular_result) : string :=
  "<p><strong>Rate:</strong> " ++ NumberToString res.(ratePerThousandSqFt)
    ++ " lbs per 1,000 sq ft</p>".

Definition total_line (res : granular_result) : string :=
  "<p><strong>Total product needed:</strong> " ++ toFixed res.(totalLbs) 2
    ++ " lbs</p>".

Definition product_line (res : granular_result) : string :=
  "<p><strong>Product:</strong> " ++ res.(productName) ++ "</p>".

(** No stored rate of the list is NaN. *)
Definition no_NaN_rate (chemicalsData : list chemical) : Prop :=
  forall chem rate, In chem chemicalsData ->
    chem.(defaultRatePerGallon) = VNumber rate -> isNaN rate = false.

(** A size below which no product of the calculators overflows, and the
    numbers and stored rates below it. *)
Definition range_limit : number := 1e150.

Definition within_range (x : number) : Prop := (x <? range_limit) = true.

Definition rates_within_range (chemicalsData : list chemical) : Prop :=
  forall chem rate, In chem chemicalsData ->
    chem.(defaultRatePerGallon) = VNumber rate -> within_range rate.

(** On the specification side: a zero, or a finite number below [2 ^ k]
    in absolute value whose exponent is at most the canonical one of
    [2 ^ k]. *)
Definition bounded_by (x : spec_float) (k : Z) : Prop :=
  match x with
  | S754_zero _ => True
  | S754_finite _ m e =>
      (Zdigits2 (Zpos m) + e <= k /\ e <= Z.max (k - 53) (-1074))%Z
  | _ => False
  end.

End Props.

(** ** Further vocabulary: amounts, list items, outcomes *)

Module Terms.

Import JS Calc Props.
#[local] Open Scope string_scope.
#[local] Open Scope float_scope.

(** A number that is not below zero ([NaN] is not). *)
Definition not_negative (x : number) : Prop := (x <? 0) = false.

(** The same on the specification side: NaN, a zero of either sign or a
    positive number. *)
Definition sf_not_negative (x : spec_float) : Prop :=
  SFltb x (S754_zero false) = false.

(** The [<li>] element [formatMixResultsHTML] writes for an item. *)
Definition list_item (item : mix_item) : string := appendMixItem "" item.

(** An argument that is a strictly positive number. *)
Definition positive_arg (arg : option number) : Prop :=
  exists x, arg = Some x /\ strictly_positive x.

(** A product list that is an array with at least one entry. *)
Definition non_empty_array (arg : option (list chemical)) : Prop :=
  exists chemicalsData, arg = Some chemicalsData /\ chemicalsData <> [].

End Terms.

(** ** The admin API: the key check

    [requireAdminAuth] of the Express server in the same file. The request
    is its two headers, the configuration is [ADMIN_API_KEY] as read from
    the environment: a string, or [undefined], here [None]. *)

Module Server.

Import JS Calc.
#[local] Open Scope string_scope.

(** The headers the middleware reads; a header that was not sent is
    [None]. *)
Record headers := {
  x_admin_api_key : option string;
  authorization : option string
}.

(** What the middleware does: call [next()], after a warning on the
    console or without one, or answer with a status and a JSON body
    [{ error, message }]. *)
Inductive auth_outcome :=
| Next (warned : bool)
| Respond (status : nat) (error message : string).

(** [s.replace(pattern, replacement)] for a string pattern: the first
    occurrence is replaced. The replacement is taken as it is (the one the
    middleware passes is empty and holds no [$] pattern). *)
Fixpoint replace (pattern replacement s : string) : string :=
  if prefix pattern s then replacement ++ drop (String.length pattern) s
  else
    match s with
    | EmptyString => EmptyString
    | String c rest => String c (replace pattern replacement rest)
    end.

(** [a !== b] on two string-or-undefined values, negated. *)
Definition same_key (a b : option string) : bool :=
  match a, b with
  | Some x, Some y => String.eqb x y
  | None, None => true
  | _, _ => false
  end.

(** The key a request provides:
    [headers['x-admin-api-key'] || headers['authorization']?.replace('Bearer ', '')]. *)
Definition providedKey (request : headers) : option string :=
  if truthy_property request.(x_admin_api_key) then request.(x_admin_api_key)
  else option_map (replace "Bearer " "") request.(authorization).

(** [requireAdminAuth(req, res, next)] *)
Definition requireAdminAuth (ADMIN_API_KEY : option string)
    (request : headers) : auth_outcome :=
  if negb (truthy_property ADMIN_API_KEY) then Next true
  else
    let providedKey := providedKey request in
    if negb (truthy_property providedKey) then
      Respond 401 "Unauthorized"
        "Missing API key. Provide X-Admin-API-Key header."
    else if negb (same_key providedKey ADMIN_API_KEY) then
      Respond 403 "Forbidden" "Invalid API key"
    else Next false.

End Server.

(** ** The plant catalog helpers

    The synchronous functions of [PlantUtils] in the same file. The catalog
    is [window.plantsMaster], passed explicitly: an array of plant objects,
    or anything else, here [None]. *)

Module PlantUtils.

Import JS Calc Props.
#[local] Open Scope string_scope.

(** ToBoolean on a primitive value. *)
Definition ToBoolean (v : value) : bool :=
  match v with
  | VUndefined | VNull => false
  | VBool b => b
  | VNumber x => truthy_number x
  | VString s => truthy_string s
  end.

(** [a === b] on primitive values. *)
Definition strict_equal (a b : value) : bool :=
  match a, b with
  | VUndefined, VUndefined => true
  | VNull, VNull => true
  | VBool x, VBool y => Bool.eqb x y
  | VNumber x, VNumber y => PrimFloat.eqb x y
  | VString x, VString y => String.eqb x y
  | _, _ => false
  end.

(** [String(v)] *)
Definition ToString (v : value) : string :=
  match v with
  | VUndefined => "undefined"
  | VNull => "null"
  | VBool b => if b then "true" else "false"
  | VNumber x => NumberToString x
  | VString s => s
  end.

(** The text [Array.prototype.join] makes of an element: nothing for
    [undefined] and [null]. *)
Definition element_text (v : value) : string :=
  match v with
  | VUndefined | VNull => ""
  | _ => ToString v
  end.

(** What a list-like catalog property holds: a primitive (a missing
    property is [Prim VUndefined]) or an array of primitives. *)
Inductive property :=
| Prim (v : value)
| Arr (items : list value).

Definition truthy (p : property) : bool :=
  match p with
  | Prim v => ToBoolean v
  | Arr _ => true
  end.

(** A plant of the catalog, with the properties the helpers read. Names
    are text or missing; [categories] is an array or missing. *)
Record plant := {
  plantId : value;
  commonName : option string;
  botanicalName : option string;
  synonyms : property;
  commonPests : property;
  commonDiseases : property;
  commonAbioticIssues : property;
  symptomPatterns : property;
  heatTolerance : value;
  coldTolerance : value;
  droughtTolerance : value;
  saltTolerance : value;
  petSafety : value;
  pollinatorValue : value;
  deerResistance : value;
  categories : option (list value);
  isNative : value;
  isEdible : value;
  isHouseplant : value
}.

(** [ensureArray(value)] *)
Definition ensureArray (value : property) : list JS.value :=
  if negb (truthy value) then []
  else
    match value with
    | Arr items => items
    | Prim v => [v]
    end.

(** [getAllPlantsSync()] *)
Definition getAllPlantsSync (plantsMaster : option (list plant))
    : list plant :=
  match plantsMaster with
  | Some plants => plants
  | None => []
  end.

(** [getPlantByIdSync(plantId)]; [null] is [None]. A plant is an object,
    hence truthy, so [|| null] only turns a failed [find] into [null]. *)
Definition getPlantByIdSync (plantsMaster : option (list plant))
    (plantId : value) : option plant :=
  if negb (ToBoolean plantId) then None
  else
    find (fun p => strict_equal p.(PlantUtils.plantId) plantId)
      (getAllPlantsSync plantsMaster).

(** [x || null] on a primitive, and on a text property ([None] is then
    [null]). *)
Definition or_null (v : value) : value :=
  if ToBoolean v then v else VNull.

Definition text_or_null (text : option string) : option string :=
  if truthy_property text then text else None.

(** The object [getDiagnosticProfileSync] builds. *)
Module Profile.
Record t := {
  plantId : value;
  commonName : option string;
  botanicalName : option string;
  commonPests : list value;
  commonDiseases : list value;
  commonAbioticIssues : list value;
  symptomPatterns : list value;
  heatTolerance : value;
  coldTolerance : value;
  droughtTolerance : value;
  saltTolerance : value;
  petSafety : value;
  pollinatorValue : value;
  deerResistance : value
}.
End Profile.

(** [getDiagnosticProfileSync(plantId)] *)
Definition getDiagnosticProfileSync (plantsMaster : option (list plant))
    (plantId : value) : option Profile.t :=
  match getPlantByIdSync plantsMaster plantId with
  | None => None
  | Some plant =>
      Some {|
        Profile.plantId := plant.(PlantUtils.plantId);
        Profile.commonName := text_or_null plant.(commonName);
        Profile.botanicalName := text_or_null plant.(botanicalName);
        Profile.commonPests := ensureArray plant.(commonPests);
        Profile.commonDiseases := ensureArray plant.(commonDiseases);
        Profile.commonAbioticIssues := ensureArray plant.(commonAbioticIssues);
        Profile.symptomPatterns :=
          match plant.(symptomPatterns) with
          | Arr patterns => patterns
          | Prim _ => []
          end;
        Profile.heatTolerance := or_null plant.(heatTolerance);
        Profile.coldTolerance := or_null plant.(coldTolerance);
        Profile.droughtTolerance := or_null plant.(droughtTolerance);
        Profile.saltTolerance := or_null plant.(saltTolerance);
        Profile.petSafety := or_null plant.(petSafety);
        Profile.pollinatorValue := or_null plant.(pollinatorValue);
        Profile.deerResistance := or_null plant.(deerResistance)
      |}
  end.

(** The flags. *)
Definition getNativePlantsSync (plantsMaster : option (list plant))
    : list plant :=
  filter (fun p => ToBoolean p.(isNative)) (getAllPlantsSync plantsMaster).

Definition getEdiblePlantsSync (plantsMaster : option (list plant))
    : list plant :=
  filter (fun p => ToBoolean p.(isEdible)) (getAllPlantsSync plantsMaster).

Definition getHouseplantsSync (plantsMaster : option (list plant))
    : list plant :=
  filter (fun p => ToBoolean p.(isHouseplant)) (getAllPlantsSync plantsMaster).

(** *** Searching

    [String.prototype.trim] and [String.prototype.toLowerCase] follow the
    Unicode tables of the engine; the functions below take them as they
    come. *)

Section Search.

Variable trim : string -> string.
Variable toLowerCase : string -> string.

(** [(text || '')] *)
Definition text_or_empty (text : option string) : string :=
  match text with
  | Some s => if truthy_string s then s else ""
  | None => ""
  end.

(** [(term || '').trim().toLowerCase()] *)
Definition normalize (term : option string) : string :=
  toLowerCase (trim (text_or_empty term)).

(** The callback of [filter] in [searchPlantsSync]. *)
Definition matchesTerm (t : string) (p : plant) : bool :=
  let common := toLowerCase (text_or_empty p.(commonName)) in
  let botanical := toLowerCase (text_or_empty p.(botanicalName)) in
  let synonyms :=
    toLowerCase (join " " (map element_text (ensureArray p.(synonyms)))) in
  includes t common || includes t botanical || includes t synonyms.

(** [searchPlantsSync(term)] *)
Definition searchPlantsSync (plantsMaster : option (list plant))
    (term : option string) : list plant :=
  let t := normalize term in
  let plants := getAllPlantsSync plantsMaster in
  if negb (truthy_string t) then plants
  else filter (matchesTerm t) plants.

(** The callback of [find] in [findBestPlantMatchSync]. *)
Definition isExactMatch (t : string) (p : plant) : bool :=
  let common := toLowerCase (text_or_empty p.(commonName)) in
  let botanical := toLowerCase (text_or_empty p.(botanicalName)) in
  String.eqb common t || String.eqb botanical t.

(** [findBestPlantMatchSync(term)] *)
Definition findBestPlantMatchSync (plantsMaster : option (list plant))
    (term : option string) : option plant :=
  let t := normalize term in
  if negb (truthy_string t) then None
  else
    let plants := getAllPlantsSync plantsMaster in
    if (List.length plants =? 0)%nat then None
    else
      match find (isExactMatch t) plants with
      | Some exact => Some exact
      | None =>
          match searchPlantsSync plantsMaster term with
          | first :: _ => Some first
          | [] => None
          end
      end.

(** [filterPlantsByCategorySync(category)] *)
Definition filterPlantsByCategorySync (plantsMaster : option (list plant))
    (category : option string) : list plant :=
  let c := normalize category in
  if negb (truthy_string c) then getAllPlantsSync plantsMaster
  else
    filter
      (fun p =>
         let cats :=
           map (fun x => toLowerCase (ToString x))
             (match p.(categories) with
              | Some entries => entries
              | None => []
              end) in
         existsb (String.eqb c) cats)
      (getAllPlantsSync plantsMaster).

End Search.

End PlantUtils.

(** ** Vocabulary for the catalog helpers *)

Module CatalogTerms.

Import JS PlantUtils.

(** A value that [x || null] lets through: [null] or a truthy value. *)
Definition null_or_truthy (v : value) : Prop :=
  v = VNull \/ ToBoolean v = true.

(** A text that [x || null] lets through: [null] or a non-empty string. *)
Definition null_or_text (text : option string) : Prop :=
  text = None \/ exists s, text = Some s /\ s <> EmptyString.

(** [l] is [l'] with some elements left out: the same order, nothing
    added. *)
Inductive subsequence {A : Type} : list A -> list A -> Prop :=
| subsequence_nil : subsequence [] []
| subsequence_skip (x : A) (l l' : list A) :
    subsequence l l' -> subsequence l (x :: l')
| subsequence_keep (x : A) (l l' : list A) :
    subsequence l l' -> subsequence (x :: l) (x :: l').

(** A catalog entry with an id, names and synonyms, and no other
    property. *)
Definition entry (id : value) (common botanical : option string)
    (synonyms : property) : plant :=
  {| plantId := id;
     commonName := common;
     botanicalName := botanical;
     PlantUtils.synonyms := synonyms;
     commonPests := Prim VUndefined;
     commonDiseases := Prim VUndefined;
     commonAbioticIssues := Prim VUndefined;
     symptomPatterns := Prim VUndefined;
     heatTolerance := VUndefined;
     coldTolerance := VUndefined;
     droughtTolerance := VUndefined;
     saltTolerance := VUndefined;
     petSafety := VUndefined;
     pollinatorValue := VUndefined;
     deerResistance := VUndefined;
     categories := None;
     isNative := VUndefined;
     isEdible := VUndefined;
     isHouseplant := VUndefined |}.

End CatalogTerms.

(** ** Facts about binary64 numbers *)

Module NumberFacts.

Import JS Props.
#[local] Open Scope float_scope.

Lemma Prim2SF_zero : Prim2SF 0 = S754_zero false.
Proof. reflexivity. Qed.

Lemma SFcompare_finite_refl (s : bool) (m : positive) (e : Z) :
  SFcompare (S754_finite s m e) (S754_finite s m e) = Some Eq.
Proof.
  cbn. rewrite Z.compare_refl, Pos.compare_cont_refl. now destruct s.
Qed.

(** Comparisons and tests unfolded to the specification of [x]. *)
Ltac to_spec :=
  unfold strictly_positive, truthy_number, isNaN, is_zero, is_nan in *;
  rewrite ?ltb_spec, ?leb_spec, ?FloatAxioms.eqb_spec in *;
  change (Prim2SF PrimFloat.zero) with (S754_zero false) in *;
  change (Prim2SF 0) with (S754_zero false) in *.

Ltac by_cases x :=
  to_spec;
  destruct (Prim2SF x) as [[|]|[|]| |[|] ? ?] eqn:?;
  unfold SFeqb, SFltb, SFleb in *;
  rewrite ?SFcompare_finite_refl in *;
  cbn in *; try congruence; auto.

Lemma positive_truthy (x : number) :
  strictly_positive x -> truthy_number x = true.
Proof. intros H. by_cases x. Qed.

Lemma positive_not_le_zero (x : number) :
  strictly_positive x -> (x <=? 0) = false.
Proof. intros H. by_cases x. Qed.

Lemma positive_not_NaN (x : number) :
  strictly_positive x -> isNaN x = false.
Proof. intros H. by_cases x. Qed.

Lemma zero_falsy (x : number) : is_zero x = true -> truthy_number x = false.
Proof. intros H. unfold truthy_number. now rewrite H. Qed.

Lemma negative_le_zero (x : number) : (x <? 0) = true -> (x <=? 0) = true.
Proof. intros H. by_cases x. Qed.

Lemma NaN_falsy (x : number) : is_nan x = true -> truthy_number x = false.
Proof.
  intros H. unfold truthy_number. rewrite H. now rewrite orb_true_r.
Qed.

(** The guard [!x || x <= 0] of both calculators. *)
Lemma guard_positive (x : number) :
  strictly_positive x -> negb (truthy_number x) || (x <=? 0) = false.
Proof.
  intros H. now rewrite (positive_truthy x H), (positive_not_le_zero x H).
Qed.

Lemma guard_zero_or_negative (x : number) :
  is_zero x = true \/ (x <? 0) = true ->
  negb (truthy_number x) || (x <=? 0) = true.
Proof.
  intros [H | H].
  - now rewrite (zero_falsy x H).
  - rewrite (negative_le_zero x H). apply orb_true_r.
Qed.

End NumberFacts.

(** ** Validation and arithmetic of the granular calculator *)

Module GranularFacts.

Import JS Calc Props NumberFacts.
#[local] Open Scope string_scope.
#[local] Open Scope float_scope.

(** C4: for a strictly positive area and a strictly positive rate,
    [calculateGranular] succeeds with [areaThousands = areaSqFt / 1000] and
    [totalLbs = areaThousands * ratePerThousandSqFt], echoes both inputs and
    the product name, and the name is the empty string when it is omitted. *)
Theorem calculateGranular_computes
    (area rate : number) (name : option string) :
  strictly_positive area ->
  strictly_positive rate ->
  calculateGranular (Some area) (Some rate) name =
    Success {|
      productName := match name with Some text => text | None => "" end;
      areaSqFt := area;
      areaThousands := area / 1000;
      ratePerThousandSqFt := rate;
      totalLbs := area / 1000 * rate
    |}.
Proof.
  intros Harea Hrate. unfold calculateGranular.
  rewrite (guard_positive area Harea), (guard_positive rate Hrate).
  now rewrite (positive_not_NaN rate Hrate).
Qed.

(** The two worked cases: 5000 sq ft at 4 lbs gives 5 thousands and
    20 lbs; 2500 sq ft at 3.5 lbs, with the name omitted, gives 8.75 lbs. *)
Lemma calculateGranular_computes_cases :
  (strictly_positive 5000 /\ strictly_positive 4 /\
   calculateGranular (Some 5000) (Some 4) (Some "Test Granular Product") =
     Success {|
       productName := "Test Granular Product";
       areaSqFt := 5000;
       areaThousands := 5;
       ratePerThousandSqFt := 4;
       totalLbs := 20
     |}) /\
  (strictly_positive 2500 /\ strictly_positive 3.5 /\
   calculateGranular (Some 2500) (Some 3.5) None =
     Success {|
       productName := "";
       areaSqFt := 2500;
       areaThousands := 2.5;
       ratePerThousandSqFt := 3.5;
       totalLbs := 8.75
     |}).
Proof.
  split; (split; [reflexivity | split; [reflexivity | ]]).
  - exact (calculateGranular_computes 5000 4 (Some "Test Granular Product")
             eq_refl eq_refl).
  - exact (calculateGranular_computes 2500 3.5 None eq_refl eq_refl).
Defined.

(** C7: validation is first-failure-wins. An absent, zero or negative area
    gives the area error whatever the rate; a strictly positive area with
    an absent, zero, negative or NaN rate gives the rate error. *)
Theorem calculateGranular_validation
    (area rate : option number) (name : option string) :
  (absent_zero_or_negative area ->
   calculateGranular area rate name = Error area_error) /\
  (forall a, area = Some a -> strictly_positive a ->
   absent_zero_negative_or_NaN rate ->
   calculateGranular area rate name = Error rate_error).
Proof.
  split.
  - destruct area as [a |]; cbn; intros H; [| reflexivity].
    now rewrite (guard_zero_or_negative a H).
  - intros a -> Ha Hrate. unfold calculateGranular.
    rewrite (guard_positive a Ha).
    destruct rate as [r |]; [| reflexivity].
    destruct Hrate as [H | [H | H]].
    + now rewrite (zero_falsy r H).
    + rewrite (negative_le_zero r H). now rewrite orb_true_r.
    + now rewrite (NaN_falsy r H).
Qed.

Lemma calculateGranular_validation_cases :
  (absent_zero_or_negative (Some 0) /\
   calculateGranular (Some 0) (Some nan) None = Error area_error) /\
  (strictly_positive 5000 /\ absent_zero_negative_or_NaN (Some nan) /\
   calculateGranular (Some 5000) (Some nan) None = Error rate_error).
Proof.
  split.
  - split; [left; reflexivity |].
    apply (proj1 (calculateGranular_validation (Some 0) (Some nan) None)).
    left; reflexivity.
  - split; [reflexivity | split; [right; right; reflexivity |]].
    apply (proj2 (calculateGranular_validation (Some 5000) (Some nan) None)
             5000 eq_refl).
    + reflexivity.
    + right; right; reflexivity.
Defined.

End GranularFacts.

(** ** Validation of the tank-mix calculator *)

Module MixValidation.

Import JS Calc Props NumberFacts.
#[local] Open Scope string_scope.
#[local] Open Scope float_scope.

(** C5: an absent, zero or negative tank size gives the tank-size error,
    whatever the product list is: an array, empty or not, or no array. *)
Theorem calculateMix_invalid_tank
    (tankSizeGallons : option number)
    (chemicalsData : option (list chemical)) :
  absent_zero_or_negative tankSizeGallons ->
  calculateMix tankSizeGallons chemicalsData = Error tank_error.
Proof.
  destruct tankSizeGallons as [g |]; cbn; intros H; [| reflexivity].
  now rewrite (guard_zero_or_negative g H).
Qed.

Lemma calculateMix_invalid_tank_case :
  absent_zero_or_negative (Some (-3)) /\
  calculateMix (Some (-3)) None = Error tank_error.
Proof.
  split; [right; reflexivity |].
  apply (calculateMix_invalid_tank (Some (-3)) None). right; reflexivity.
Defined.

(** C6: a strictly positive tank size with an empty product sequence gives
    the "select at least one chemical" error. *)
Theorem calculateMix_no_chemicals (tankSizeGallons : number) :
  strictly_positive tankSizeGallons ->
  calculateMix (Some tankSizeGallons) (Some []) = Error chemical_error.
Proof.
  intros H. unfold calculateMix. now rewrite (guard_positive _ H).
Qed.

Lemma calculateMix_no_chemicals_case :
  strictly_positive 25 /\
  calculateMix (Some 25) (Some []) = Error chemical_error.
Proof.
  split; [reflexivity |]. apply (calculateMix_no_chemicals 25). reflexivity.
Defined.

End MixValidation.

(** ** The items of the tank-mix calculator *)

Module MixFacts.

Import JS Calc Props NumberFacts.
#[local] Open Scope string_scope.
#[local] Open Scope list_scope.
#[local] Open Scope float_scope.

(** The callback pushes exactly one item, at the end. *)
Lemma pushMixItem_push (g : number) (chem : chemical) :
  exists item, forall acc, pushMixItem g acc chem = acc ++ [item].
Proof.
  unfold pushMixItem.
  destruct (defaultRatePerGallon chem) as [| | b | rate | text];
    try (eexists; intros acc; reflexivity).
  destruct (rate <=? 0); eexists; intros acc; reflexivity.
Qed.

(** The loop pushes the items of the products one after the other. *)
Lemma forEach_pushMixItem (g : number) (chemicalsData : list chemical) :
  forall acc, exists items,
    fold_left (pushMixItem g) chemicalsData acc = acc ++ items /\
    Forall2 (fun chem item => pushMixItem g [] chem = [item])
      chemicalsData items.
Proof.
  induction chemicalsData as [| chem rest IH]; intros acc; cbn [fold_left].
  - exists []. split; [now rewrite app_nil_r | constructor].
  - destruct (pushMixItem_push g chem) as [item Hitem].
    destruct (IH (pushMixItem g acc chem)) as [items [Hfold Hall]].
    exists (item :: items). split.
    + rewrite Hfold, Hitem, <- app_assoc. reflexivity.
    + constructor; [apply (Hitem []) | exact Hall].
Qed.

Lemma Forall2_nth_error_l {A B : Type} (R : A -> B -> Prop)
    (l : list A) (l' : list B) :
  Forall2 R l l' ->
  forall i a, nth_error l i = Some a ->
  exists b, nth_error l' i = Some b /\ R a b.
Proof.
  induction 1 as [| x y l l' Hxy _ IH]; intros [| i] a Hnth;
    cbn in Hnth; try discriminate.
  - injection Hnth as <-. exists y. now split.
  - apply (IH i a Hnth).
Qed.

(** The item of a product is named after it. *)
Lemma pushMixItem_id_name (g : number) (chem : chemical) (item : mix_item) :
  pushMixItem g [] chem = [item] ->
  item_id item = chem.(id) /\ item_name item = chem.(name).
Proof.
  unfold pushMixItem.
  destruct (defaultRatePerGallon chem) as [| | b | rate | text];
    try destruct (rate <=? 0); cbn; intros [= <-]; now split.
Qed.

(** A success is reached on a strictly positive tank size and a non-empty
    array, and its fields are these. *)
Lemma calculateMix_success (g : number) (chemicalsData : list chemical) :
  strictly_positive g -> chemicalsData <> [] ->
  exists res,
    calculateMix (Some g) (Some chemicalsData) = Success res /\
    res.(tankSize) = g /\
    res.(sprayVolume) = 1 /\
    res.(estimatedCoverageSqFt) = g * 1000 /\
    Forall2 (fun chem item => pushMixItem g [] chem = [item])
      chemicalsData res.(mixItems).
Proof.
  intros Hg Hne. unfold calculateMix. rewrite (guard_positive g Hg).
  destruct chemicalsData as [| chem rest]; [contradiction |].
  cbn [List.length Nat.eqb].
  destruct (forEach_pushMixItem g (chem :: rest) []) as [items [Hfold Hall]].
  eexists. split; [reflexivity |]. cbn [tankSize sprayVolume
    estimatedCoverageSqFt mixItems]. rewrite Hfold. cbn [app].
  repeat split; assumption.
Qed.

(** C1: on a strictly positive tank size [g], the entry of a product whose
    [defaultRatePerGallon] is a strictly positive number [r] is a computed
    item with [flOz = r * g], [ml = flOz * 29.57], [ratePerGallon = r] and
    [hasStoredRate] true; and every success on [g], whatever the products,
    has [sprayVolume = 1] and [estimatedCoverageSqFt = g * 1000]. *)
Theorem calculateMix_stored_rate
    (g : number) (chemicalsData : list chemical)
    (i : nat) (chem : chemical) (r : number) :
  strictly_positive g ->
  nth_error chemicalsData i = Some chem ->
  chem.(defaultRatePerGallon) = VNumber r ->
  strictly_positive r ->
  (exists res item,
     calculateMix (Some g) (Some chemicalsData) = Success res /\
     nth_error res.(mixItems) i = Some item /\
     item = ComputedItem chem.(id) chem.(name) r (r * g) (r * g * 29.57) /\
     hasStoredRate item = true) /\
  (forall others res,
     calculateMix (Some g) others = Success res ->
     res.(sprayVolume) = 1 /\ res.(estimatedCoverageSqFt) = g * 1000).
Proof.
  intros Hg Hnth Hrate Hr. split.
  - assert (Hne : chemicalsData <> []).
    { intros ->. destruct i; discriminate. }
    destruct (calculateMix_success g chemicalsData Hg Hne)
      as [res [Hres [_ [_ [_ Hall]]]]].
    destruct (Forall2_nth_error_l _ _ _ Hall i chem Hnth)
      as [item [Hitem Hpush]].
    exists res, item. split; [exact Hres | split; [exact Hitem |]].
    unfold pushMixItem in Hpush.
    rewrite Hrate, (positive_not_le_zero r Hr) in Hpush.
    injection Hpush as <-. split; reflexivity.
  - intros others res. unfold calculateMix. rewrite (guard_positive g Hg).
    destruct others as [others |]; [| discriminate].
    destruct (List.length others =? 0)%nat; [discriminate |].
    intros [= <-]. split; reflexivity.
Qed.

(** The first unit test of the mix calculator: 25 gallons at 2.5 fl oz per
    gallon is 62.5 fl oz, 1848.125 mL, and covers 25000 sq ft. *)
Lemma calculateMix_stored_rate_case :
  let chem := {| id := "chem1"; name := "Test Chemical";
                 defaultRatePerGallon := VNumber 2.5;
                 mixRate := Some "2.5 fl oz/gal" |} in
  strictly_positive 25 /\ strictly_positive 2.5 /\
  exists res item,
    calculateMix (Some 25) (Some [chem]) = Success res /\
    nth_error res.(mixItems) 0 = Some item /\
    item = ComputedItem "chem1" "Test Chemical" 2.5 62.5 1848.125 /\
    hasStoredRate item = true.
Proof.
  intros chem. split; [reflexivity | split; [reflexivity |]].
  exact (proj1 (calculateMix_stored_rate 25 [chem] 0 chem 2.5
                  eq_refl eq_refl eq_refl eq_refl)).
Defined.

(** C8: on a strictly positive tank size and a non-empty array, [mixItems]
    holds the item of each product, one for one and in the order of the
    input: as many items as products, with the same ids and names in the
    same positions, repeated ids included. *)
Theorem calculateMix_items_in_order
    (g : number) (chemicalsData : list chemical) :
  strictly_positive g -> chemicalsData <> [] ->
  exists res,
    calculateMix (Some g) (Some chemicalsData) = Success res /\
    Forall2 (fun chem item => pushMixItem g [] chem = [item])
      chemicalsData res.(mixItems) /\
    List.length res.(mixItems) = List.length chemicalsData /\
    map item_id res.(mixItems) = map id chemicalsData /\
    map item_name res.(mixItems) = map name chemicalsData.
Proof.
  intros Hg Hne.
  destruct (calculateMix_success g chemicalsData Hg Hne)
    as [res [Hres [_ [_ [_ Hall]]]]].
  exists res. split; [exact Hres | split; [exact Hall |]].
  clear Hres Hne. induction Hall as [| chem item l l' Hpush _ IH].
  - repeat split.
  - destruct IH as [Hlen [Hids Hnames]].
    destruct (pushMixItem_id_name g chem item Hpush) as [Hid Hname].
    cbn. rewrite Hlen, Hids, Hnames, Hid, Hname. repeat split.
Qed.

(** Two products with the same id, the second without a stored rate: both
    entries are kept, in the order given. *)
Lemma calculateMix_items_in_order_case :
  let first := {| id := "chem1"; name := "Chemical 1";
                  defaultRatePerGallon := VNumber 2; mixRate := None |} in
  let second := {| id := "chem1"; name := "Chemical 2";
                   defaultRatePerGallon := VUndefined;
                   mixRate := Some "See label" |} in
  strictly_positive 10 /\ [first; second] <> [] /\
  exists res,
    calculateMix (Some 10) (Some [first; second]) = Success res /\
    res.(mixItems) =
      [ComputedItem "chem1" "Chemical 1" 2 20 591.4;
       FallbackItem "chem1" "Chemical 2" "See label"].
Proof.
  intros first second.
  split; [reflexivity | split; [discriminate |]].
  destruct (calculateMix_items_in_order 10 [first; second] eq_refl)
    as [res [Hres _]]; [discriminate |].
  exists res. split; [exact Hres |].
  injection Hres as <-. reflexivity.
Defined.

End MixFacts.

(** ** Products without a usable rate *)

Module FallbackFacts.

Import JS Calc Props NumberFacts.
#[local] Open Scope string_scope.
#[local] Open Scope list_scope.
#[local] Open Scope float_scope.

(** The match on [VNumber] in [pushMixItem] is the [typeof] test. *)
Lemma typeof_number (v : value) :
  typeof v = "number" <-> exists x, v = VNumber x.
Proof.
  split.
  - destruct v; try discriminate. intros _. now eexists.
  - intros [x ->]. reflexivity.
Qed.

Lemma labelFor_not_empty (chem : chemical) : labelFor chem <> "".
Proof.
  unfold labelFor. destruct (mixRate chem) as [[| c rest] |]; discriminate.
Qed.

(** A rate that is not a Number, or a Number that is zero or negative,
    routes the product to a fallback item. *)
Lemma pushMixItem_fallback (g : number) (chem : chemical) :
  (forall rate, chem.(defaultRatePerGallon) = VNumber rate ->
     is_zero rate = true \/ (rate <? 0) = true) ->
  pushMixItem g [] chem =
    [FallbackItem chem.(id) chem.(name) (labelFor chem)].
Proof.
  intros Hrate. unfold pushMixItem, labelFor.
  assert (Hlabel :
    match mixRate chem with
    | Some rate => if truthy_string rate then rate else label_fallback
    | None => label_fallback
    end =
    match mixRate chem with
    | Some (String c rest) => String c rest
    | _ => label_fallback
    end).
  { destruct (mixRate chem) as [[| c rest] |]; reflexivity. }
  unfold label_fallback in Hlabel. rewrite Hlabel.
  destruct (defaultRatePerGallon chem) as [| | b | rate | text];
    try reflexivity.
  destruct (Hrate rate eq_refl) as [H | H].
  - assert (Hle : (rate <=? 0) = true) by (clear Hrate; by_cases rate).
    now rewrite Hle.
  - now rewrite (negative_le_zero rate H).
Qed.

(** A rate that is NaN passes both tests of the guard and is used as a
    stored rate. *)
Lemma pushMixItem_NaN (g : number) (chem : chemical) (rate : number) :
  chem.(defaultRatePerGallon) = VNumber rate -> isNaN rate = true ->
  pushMixItem g [] chem =
    [ComputedItem chem.(id) chem.(name) rate (rate * g)
       (rate * g * FL_OZ_TO_ML)].
Proof.
  intros Hrate Hnan. unfold pushMixItem. rewrite Hrate.
  assert (Hle : (rate <=? 0) = false) by (by_cases rate).
  now rewrite Hle.
Qed.

(** C2, at a rate that is NaN: [typeof NaN] is ["number"] and [NaN <= 0] is
    false, so the product is not routed to a fallback item; its entry is a
    computed item with [hasStoredRate] true and NaN amounts. *)
Theorem calculateMix_NaN_rate :
  calculateMix (Some 25)
    (Some [{| id := "chem1"; name := "Test Chemical";
              defaultRatePerGallon := VNumber nan;
              mixRate := Some "See label" |}]) =
  Success {|
    tankSize := 25;
    sprayVolume := 1;
    estimatedCoverageSqFt := 25000;
    mixItems := [ComputedItem "chem1" "Test Chemical" nan nan nan];
    mixText := "Test Chemical: NaN fl oz (~NaN mL) at NaN fl oz/gal"
  |}.
Proof. reflexivity. Qed.

End FallbackFacts.

(** ** The error path of the formatters *)

Module FormatErrorFacts.

Import JS Calc.
#[local] Open Scope string_scope.

(** C9: on an object whose [error] is a non-empty string [X], both
    formatters return [X] itself, whatever else the object holds; so they
    do on [{ error: X }]. *)
Theorem format_error_verbatim (X : string) :
  X <> "" ->
  (forall results, results.(MixObject.error) = Some X ->
     formatMixResultsHTML results = Returns X) /\
  (forall results, results.(GranularObject.error) = Some X ->
     formatGranularResultsHTML results = Returns X) /\
  formatMixResultsHTML (mixObject (Error X)) = Returns X /\
  formatGranularResultsHTML (granularObject (Error X)) = Returns X.
Proof.
  intros HX. destruct X as [| c rest]; [contradiction |].
  assert (Hmix : forall results,
    results.(MixObject.error) = Some (String c rest) ->
    formatMixResultsHTML results = Returns (String c rest)).
  { intros results H. unfold formatMixResultsHTML. now rewrite H. }
  assert (Hgranular : forall results,
    results.(GranularObject.error) = Some (String c rest) ->
    formatGranularResultsHTML results = Returns (String c rest)).
  { intros results H. unfold formatGranularResultsHTML. now rewrite H. }
  repeat split; auto.
Qed.

Lemma format_error_verbatim_case :
  "Test error" <> "" /\
  formatMixResultsHTML (mixObject (Error "Test error")) =
    Returns "Test error" /\
  formatGranularResultsHTML (granularObject (Error "Test error")) =
    Returns "Test error".
Proof.
  split; [discriminate |].
  destruct (format_error_verbatim "Test error") as [_ [_ H]];
    [discriminate | exact H].
Defined.

End FormatErrorFacts.

(** ** Multiplication and division never invent a NaN *)

Module ArithFacts.

Import JS Props NumberFacts.

Section Rounding.
#[local] Open Scope Z_scope.

Variables prec emax : Z.

Lemma shr_1_nonneg (mrs : shr_record) :
  0 <= shr_m mrs -> 0 <= shr_m (shr_1 mrs).
Proof.
  destruct mrs as [[| [p | p |] | [p | p |]] r s]; cbn; lia.
Qed.

Lemma iter_pos_invariant {A : Type} (P : A -> Prop) (f : A -> A) :
  (forall x, P x -> P (f x)) ->
  forall p x, P x -> P (iter_pos f p x).
Proof.
  intros Hf. induction p as [p IH | p IH |]; intros x Hx; cbn; auto.
Qed.

Lemma shr_nonneg (mrs : shr_record) (e n : Z) :
  0 <= shr_m mrs -> 0 <= shr_m (fst (shr mrs e n)).
Proof.
  intros H. destruct n as [| p | p]; cbn; auto.
  apply (iter_pos_invariant (fun r => 0 <= shr_m r)); auto using shr_1_nonneg.
Qed.

Lemma shr_record_of_loc_m (m : Z) (l : location) :
  shr_m (shr_record_of_loc m l) = m.
Proof. destruct l as [| []]; reflexivity. Qed.

Lemma shr_fexp_nonneg (m e : Z) (l : location) :
  0 <= m -> 0 <= shr_m (fst (shr_fexp prec emax m e l)).
Proof.
  intros H. unfold shr_fexp. apply shr_nonneg.
  now rewrite shr_record_of_loc_m.
Qed.

Lemma round_nearest_even_nonneg (m : Z) (l : location) :
  0 <= m -> 0 <= round_nearest_even m l.
Proof.
  intros H. destruct l as [| []]; cbn; try lia.
  destruct (Z.even m); lia.
Qed.

(** Rounding a non-negative mantissa gives a zero, a finite number or an
    infinity. *)
Lemma binary_round_aux_not_nan (s : bool) (m e : Z) (l : location) :
  0 <= m -> binary_round_aux prec emax s m e l <> S754_nan.
Proof.
  intros H. unfold binary_round_aux.
  pose proof (shr_fexp_nonneg m e l H) as H1.
  destruct (shr_fexp prec emax m e l) as [mrs' e'] eqn:E1. cbn [fst] in H1.
  pose proof (shr_fexp_nonneg
    (round_nearest_even (shr_m mrs') (loc_of_shr_record mrs')) e' loc_Exact
    (round_nearest_even_nonneg _ _ H1)) as H2.
  destruct (shr_fexp prec emax (round_nearest_even _ _) e' loc_Exact)
    as [mrs'' e''] eqn:E2. cbn [fst] in H2.
  destruct (shr_m mrs'') as [| p | p]; [discriminate | | lia].
  destruct (e'' <=? emax - prec); discriminate.
Qed.

(** The product of a number that is not NaN and a finite non-zero number
    is not NaN. *)
Lemma SFmul_not_nan_r (x : spec_float) (s : bool) (m : positive) (e : Z) :
  x <> S754_nan -> SFmul prec emax x (S754_finite s m e) <> S754_nan.
Proof.
  intros Hx. destruct x as [sx | sx | | sx mx ex]; cbn;
    try discriminate; try contradiction.
  apply binary_round_aux_not_nan. lia.
Qed.

(** The quotient of two finite non-zero numbers is not NaN. *)
Lemma SFdiv_not_nan (sx sy : bool) (mx my : positive) (ex ey : Z) :
  SFdiv prec emax (S754_finite sx mx ex) (S754_finite sy my ey) <> S754_nan.
Proof.
  cbn [SFdiv]. unfold SFdiv_core_binary.
  set (s := _ - _ - _).
  set (m' := match s with Z0 => Z.pos mx | Zpos _ => Z.shiftl (Z.pos mx) s
             | Zneg _ => 0 end).
  assert (Hm' : 0 <= m').
  { subst m'. destruct s; try lia. apply Z.shiftl_nonneg. lia. }
  pose proof (Z.div_pos m' (Z.pos my) Hm' ltac:(lia)) as Hq.
  unfold Z.div in Hq.
  destruct (Z.div_eucl m' (Z.pos my)) as [q r].
  apply binary_round_aux_not_nan. exact Hq.
Qed.

End Rounding.

#[local] Open Scope float_scope.

(** [isNaN] and [isFinite] in terms of the specification. *)
Lemma isNaN_false_iff (x : number) :
  isNaN x = false <-> Prim2SF x <> S754_nan.
Proof.
  split; intros H.
  - intros Hnan. by_cases x.
  - by_cases x.
Qed.

Lemma isFinite_spec (x : number) :
  isFinite x = true ->
  (exists s, Prim2SF x = S754_zero s) \/
  (exists s m e, Prim2SF x = S754_finite s m e).
Proof.
  unfold isFinite, is_finite, is_infinity. intros H.
  rewrite FloatAxioms.eqb_spec, abs_spec in H.
  change (Prim2SF infinity) with (S754_infinity false) in H.
  destruct (Prim2SF x) as [s | s | | s m e] eqn:E.
  - left. now exists s.
  - rewrite orb_true_r in H. discriminate.
  - assert (Hn : is_nan x = true) by (clear H; by_cases x).
    rewrite Hn in H. discriminate.
  - right. now exists s, m, e.
Qed.

(** A strictly positive finite number is a finite non-zero one. *)
Lemma positive_finite_spec (x : number) :
  isFinite x = true -> (x <=? 0) = false ->
  exists m e, Prim2SF x = S754_finite false m e.
Proof.
  intros Hfin Hle.
  destruct (isFinite_spec x Hfin) as [[s Hs] | [s [m [e Hs]]]].
  - clear Hfin. by_cases x.
  - clear Hfin. by_cases x; injection Hs as _ <- <-; eauto.
Qed.

Lemma mul_not_NaN (x y : number) (s : bool) (m : positive) (e : Z) :
  isNaN x = false -> Prim2SF y = S754_finite s m e -> isNaN (x * y) = false.
Proof.
  intros Hx Hy. apply isNaN_false_iff. rewrite mul_spec, Hy.
  apply SFmul_not_nan_r. now apply isNaN_false_iff.
Qed.

Lemma mul_not_NaN_l (x y : number) (s : bool) (m : positive) (e : Z) :
  Prim2SF x = S754_finite s m e -> isNaN y = false -> isNaN (x * y) = false.
Proof.
  intros Hx Hy. apply isNaN_false_iff. rewrite mul_spec, Hx.
  apply isNaN_false_iff in Hy.
  destruct (Prim2SF y) as [sy | sy | | sy my ey]; cbn;
    try discriminate; try contradiction.
  apply binary_round_aux_not_nan. lia.
Qed.

Lemma div_not_NaN (x y : number) (sx sy : bool) (mx my : positive)
    (ex ey : Z) :
  Prim2SF x = S754_finite sx mx ex -> Prim2SF y = S754_finite sy my ey ->
  isNaN (x / y) = false.
Proof.
  intros Hx Hy. apply isNaN_false_iff. rewrite div_spec, Hx, Hy.
  apply SFdiv_not_nan.
Qed.

Lemma finite_not_NaN (x : number) : isFinite x = true -> isNaN x = false.
Proof.
  unfold isFinite, is_finite, isNaN. intros H.
  destruct (is_nan x); [discriminate | reflexivity].
Qed.

End ArithFacts.

(** ** How large a rounded product or quotient can be *)

Module RangeFacts.

Import JS Calc Props NumberFacts ArithFacts.
#[local] Open Scope Z_scope.

(** The number of binary digits of a mantissa against its size. *)
Lemma digits2_pos_bounds (p : positive) :
  2 ^ (Zpos (digits2_pos p) - 1) <= Zpos p < 2 ^ Zpos (digits2_pos p).
Proof.
  induction p as [p IH | p IH |]; cbn [digits2_pos].
  - rewrite Pos2Z.inj_succ. replace (Z.succ (Zpos (digits2_pos p)) - 1)
      with (Z.succ (Zpos (digits2_pos p) - 1)) by lia.
    rewrite !Z.pow_succ_r by lia. lia.
  - rewrite Pos2Z.inj_succ. replace (Z.succ (Zpos (digits2_pos p)) - 1)
      with (Z.succ (Zpos (digits2_pos p) - 1)) by lia.
    rewrite !Z.pow_succ_r by lia. lia.
  - cbn. lia.
Qed.

Lemma Zdigits2_nonneg (m : Z) : 0 <= Zdigits2 m.
Proof. destruct m; cbn; lia. Qed.

Lemma Zdigits2_positive (p : positive) : 1 <= Zdigits2 (Zpos p).
Proof. cbn. lia. Qed.

Lemma Zdigits2_lt_pow (m : Z) : 0 <= m -> m < 2 ^ Zdigits2 m.
Proof.
  destruct m as [| p | p]; intros H; [cbn; lia | | lia].
  apply digits2_pos_bounds.
Qed.

Lemma Zdigits2_le (m k : Z) :
  0 <= m -> 0 <= k -> m < 2 ^ k -> Zdigits2 m <= k.
Proof.
  destruct m as [| p | p]; intros Hm Hk H; [cbn; lia | | lia].
  cbn [Zdigits2].
  destruct (Z.le_gt_cases (Zpos (digits2_pos p)) k) as [| Hgt];
    [assumption |].
  pose proof (digits2_pos_bounds p) as [Hlow _].
  assert (2 ^ k <= 2 ^ (Zpos (digits2_pos p) - 1))
    by (apply Z.pow_le_mono_r; lia).
  lia.
Qed.

Lemma Zdigits2_mul (a b : Z) :
  0 <= a -> 0 <= b -> Zdigits2 (a * b) <= Zdigits2 a + Zdigits2 b.
Proof.
  intros Ha Hb.
  pose proof (Zdigits2_nonneg a). pose proof (Zdigits2_nonneg b).
  apply Zdigits2_le; [lia | lia |].
  rewrite Z.pow_add_r by lia.
  pose proof (Zdigits2_lt_pow a Ha). pose proof (Zdigits2_lt_pow b Hb).
  nia.
Qed.

(** A shift to the right by one place takes one digit off. *)
Lemma shr_1_digits (r : shr_record) :
  0 <= shr_m r ->
  0 <= shr_m (shr_1 r) /\
  Zdigits2 (shr_m (shr_1 r)) <= Z.max (Zdigits2 (shr_m r) - 1) 0.
Proof.
  destruct r as [[| [p | p |] | p] b s];
    cbn [shr_m shr_1 Zdigits2 digits2_pos];
    intros H; try lia; rewrite ?Pos2Z.inj_succ; lia.
Qed.

Lemma iter_shr_1_digits (p : positive) :
  forall r, 0 <= shr_m r ->
  0 <= shr_m (iter_pos shr_1 p r) /\
  Zdigits2 (shr_m (iter_pos shr_1 p r))
    <= Z.max (Zdigits2 (shr_m r) - Zpos p) 0.
Proof.
  induction p as [p IH | p IH |]; intros r Hr; cbn [iter_pos].
  - destruct (shr_1_digits r Hr) as [H1 D1].
    destruct (IH _ H1) as [H2 D2]. destruct (IH _ H2) as [H3 D3].
    split; [exact H3 | lia].
  - destruct (IH _ Hr) as [H2 D2]. destruct (IH _ H2) as [H3 D3].
    split; [exact H3 | lia].
  - destruct (shr_1_digits r Hr) as [H1 D1]. split; [exact H1 | lia].
Qed.

(** The exponent [shr_fexp] settles on, and the digits it leaves. *)
Lemma shr_fexp_bounds (m e : Z) (l : location) :
  0 <= m ->
  snd (shr_fexp prec emax m e l) = Z.max e (fexp prec emax (Zdigits2 m + e)) /\
  0 <= shr_m (fst (shr_fexp prec emax m e l)) /\
  Zdigits2 (shr_m (fst (shr_fexp prec emax m e l)))
    <= Z.max (Zdigits2 m - (snd (shr_fexp prec emax m e l) - e)) 0.
Proof.
  intros Hm. unfold shr_fexp, shr.
  pose proof (shr_record_of_loc_m m l) as Hrec.
  destruct (fexp prec emax (Zdigits2 m + e) - e) as [| n | n] eqn:Hn;
    cbn [fst snd]; rewrite ?Hrec.
  - repeat split; lia.
  - destruct (iter_shr_1_digits n (shr_record_of_loc m l)) as [H D];
      [rewrite Hrec; lia |]. rewrite Hrec in D.
    repeat split; lia.
  - repeat split; lia.
Qed.

(** Rounding to nearest adds at most one digit. *)
Lemma round_nearest_even_digits (m k : Z) (l : location) :
  0 <= m -> 0 <= k -> Zdigits2 m <= k ->
  Zdigits2 (round_nearest_even m l) <= k + 1.
Proof.
  intros Hm Hk Hd.
  assert (Hlt : m < 2 ^ k).
  { pose proof (Zdigits2_lt_pow m Hm).
    assert (2 ^ Zdigits2 m <= 2 ^ k)
      by (apply Z.pow_le_mono_r; pose proof (Zdigits2_nonneg m); lia).
    lia. }
  assert (Hdouble : 2 ^ (k + 1) = 2 * 2 ^ k)
    by (rewrite Z.pow_add_r by lia; lia).
  pose proof (round_nearest_even_nonneg m l Hm) as Hr.
  apply Zdigits2_le; [exact Hr | lia |].
  destruct l as [| []]; cbn [round_nearest_even]; try lia.
  destruct (Z.even m); lia.
Qed.

(** Rounding [m * 2 ^ e], a value below [2 ^ B] with [B <= 1023], gives a
    zero or a finite number below [2 ^ (B + 1)]: no overflow. *)
Lemma binary_round_aux_bounded (s : bool) (m e : Z) (l : location) (B : Z) :
  0 <= m -> Zdigits2 m + e <= B -> e <= Z.max (B - 53) (-1074) ->
  -1074 <= B -> B <= 1023 ->
  bounded_by (binary_round_aux prec emax s m e l) (B + 1).
Proof.
  intros Hm HD He Hlow Hhigh. unfold binary_round_aux.
  pose proof (shr_fexp_bounds m e l Hm) as [E1 [P1 D1]].
  destruct (shr_fexp prec emax m e l) as [r1 e1]. cbn [fst snd] in *.
  set (m2 := round_nearest_even (shr_m r1) (loc_of_shr_record r1)).
  assert (Hm2 : 0 <= m2) by (apply round_nearest_even_nonneg; exact P1).
  assert (Hfexp : forall k, fexp prec emax k = Z.max (k - 53) (-1074))
    by reflexivity.
  rewrite Hfexp in E1.
  assert (D2 : Zdigits2 m2 <= Z.max (Zdigits2 m - (e1 - e)) 0 + 1).
  { apply round_nearest_even_digits; [exact P1 | lia | exact D1]. }
  pose proof (shr_fexp_bounds m2 e1 loc_Exact Hm2) as [E2 [P2 D3]].
  destruct (shr_fexp prec emax m2 e1 loc_Exact) as [r2 e2].
  cbn [fst snd] in *. rewrite Hfexp in E2.
  pose proof (Zdigits2_nonneg m) as N0.
  destruct (shr_m r2) as [| p | p] eqn:Hr2; [exact I | | lia].
  cbn [Zdigits2] in D3.
  assert (Hfin : e2 <= 971) by lia.
  apply Z.leb_le in Hfin. change (emax - prec) with 971. rewrite Hfin.
  cbn [bounded_by Zdigits2]. lia.
Qed.

(** The product of a number below [2 ^ a] and a number below [2 ^ b]. *)
Lemma SFmul_bounded (x y : spec_float) (a b : Z) :
  bounded_by x a -> bounded_by y b -> 0 <= a -> 0 <= b -> a + b <= 1023 ->
  bounded_by (SFmul prec emax x y) (a + b + 1).
Proof.
  destruct x as [sx | sx | | sx mx ex], y as [sy | sy | | sy my ey];
    cbn [bounded_by SFmul]; try contradiction; try (intros; exact I).
  intros [Dx Ex] [Dy Ey] Ha Hb Hsum.
  pose proof (Zdigits2_mul (Zpos mx) (Zpos my) ltac:(lia) ltac:(lia)) as Hd.
  pose proof (Zdigits2_positive mx). pose proof (Zdigits2_positive my).
  change (Zpos (mx * my)) with (Zpos mx * Zpos my).
  apply binary_round_aux_bounded; lia.
Qed.

(** The quotient of a number below [2 ^ a] by a number of at least
    [2 ^ (52 + ey)] with a full mantissa. *)
Lemma SFdiv_bounded (sx sy : bool) (mx my : positive) (ex ey a : Z) :
  bounded_by (S754_finite sx mx ex) a ->
  Zdigits2 (Zpos my) = 53 -> 0 <= 53 + ey ->
  -1000 <= a - (53 + ey) -> a - (53 + ey) + 1 <= 1023 ->
  bounded_by (SFdiv prec emax (S754_finite sx mx ex) (S754_finite sy my ey))
    (a - (53 + ey) + 2).
Proof.
  cbn [bounded_by SFdiv]. intros [Dx Ex] Dy Hy Hlow Hhigh.
  unfold SFdiv_core_binary. rewrite Dy.
  assert (Hfexp : forall k, fexp prec emax k = Z.max (k - 53) (-1074))
    by reflexivity.
  rewrite Hfexp.
  set (d1 := Zdigits2 (Zpos mx)) in *.
  set (e' := Z.min _ _).
  set (s := ex - ey - e').
  assert (Hs : 0 <= s) by lia.
  set (m' := match s with Z0 => Z.pos mx | Zpos _ => Z.shiftl (Z.pos mx) s
             | Zneg _ => 0 end).
  assert (Hm' : m' = Zpos mx * 2 ^ s).
  { subst m'. destruct s as [| p | p] eqn:Es; [cbn; lia | | lia].
    apply Z.shiftl_mul_pow2. lia. }
  pose proof (Zdigits2_lt_pow (Zpos mx) ltac:(lia)) as Hmx. fold d1 in Hmx.
  pose proof (Zdigits2_positive mx) as Hd1. fold d1 in Hd1.
  assert (Hmy : 2 ^ 52 <= Zpos my).
  { pose proof (digits2_pos_bounds my) as [Hl _].
    cbn [Zdigits2] in Dy. rewrite Dy in Hl. exact Hl. }
  assert (Hpos : 0 <= m') by (rewrite Hm'; apply Z.mul_nonneg_nonneg;
    [lia | apply Z.pow_nonneg; lia]).
  assert (Hless : m' < 2 ^ (d1 + s))
    by (rewrite Hm', Z.pow_add_r by lia;
        apply Z.mul_lt_mono_pos_r; [apply Z.pow_pos_nonneg; lia | lia]).
  assert (Hq : 0 <= m' / Zpos my) by (apply Z.div_pos; lia).
  assert (Hdq : Zdigits2 (m' / Zpos my) <= Z.max (d1 + s - 52) 0).
  { apply Zdigits2_le; [exact Hq | lia |].
    destruct (Z.max_spec (d1 + s - 52) 0) as [[Hc ->] | [Hc ->]].
    - rewrite Z.div_small; [cbn; lia |]. split; [exact Hpos |].
      assert (2 ^ (d1 + s) <= 2 ^ 52) by (apply Z.pow_le_mono_r; lia).
      lia.
    - apply Z.div_lt_upper_bound; [lia |].
      assert (Hsplit : 2 ^ (d1 + s) = 2 ^ 52 * 2 ^ (d1 + s - 52))
        by (rewrite <- Z.pow_add_r by lia; f_equal; lia).
      assert (0 < 2 ^ (d1 + s - 52)) by (apply Z.pow_pos_nonneg; lia).
      nia. }
  unfold Z.div in Hq, Hdq.
  destruct (Z.div_eucl m' (Zpos my)) as [q r]. cbn [fst] in Hq, Hdq.
  replace (a - (53 + ey) + 2) with (a - (53 + ey) + 1 + 1) by lia.
  apply binary_round_aux_bounded; lia.
Qed.

#[local] Open Scope float_scope.

(** A finite binary64 number is below [2 ^ 1024]. *)
Lemma finite_bounded (x : number) (s : bool) (m : positive) (e : Z) :
  Prim2SF x = S754_finite s m e -> bounded_by (Prim2SF x) 1024.
Proof.
  intros Hx. pose proof (Prim2SF_valid x) as Hvalid. rewrite Hx in *.
  cbn [valid_binary bounded_by] in *.
  unfold bounded, canonical_mantissa in Hvalid.
  apply andb_prop in Hvalid as [Hcan Hexp].
  apply Z.eqb_eq in Hcan. apply Z.leb_le in Hexp.
  change (fexp prec emax (Z.pos (digits2_pos m) + e))
    with (Z.max (Z.pos (digits2_pos m) + e - 53) (-1074))%Z in Hcan.
  change (emax - prec)%Z with 971%Z in Hexp.
  cbn [Zdigits2]. lia.
Qed.

(** A positive number below a finite threshold of exponent [et] is below
    [2 ^ (53 + et)]. *)
Lemma below_bounded (x t : number) (mt : positive) (et : Z) :
  Prim2SF t = S754_finite false mt et ->
  (x <? t) = true -> (x <=? 0) = false ->
  bounded_by (Prim2SF x) (53 + et).
Proof.
  intros Ht Hlt Hle. rewrite ltb_spec, Ht in Hlt.
  rewrite leb_spec in Hle. change (Prim2SF 0) with (S754_zero false) in Hle.
  destruct (Prim2SF x) as [s | s | | s m e] eqn:Hx; [exact I | | |].
  - destruct s; discriminate.
  - discriminate.
  - pose proof (Prim2SF_valid x) as Hvalid. rewrite Hx in Hvalid.
    cbn [valid_binary] in Hvalid.
    unfold bounded, canonical_mantissa in Hvalid.
    apply andb_prop in Hvalid as [Hcan _]. apply Z.eqb_eq in Hcan.
    change (fexp prec emax (Z.pos (digits2_pos m) + e))
      with (Z.max (Z.pos (digits2_pos m) + e - 53) (-1074))%Z in Hcan.
    destruct s; [discriminate |].
    unfold SFltb in Hlt. cbn [SFcompare] in Hlt.
    cbn [bounded_by Zdigits2].
    destruct (e ?= et)%Z eqn:Hcmp; [| | discriminate].
    + apply Z.compare_eq in Hcmp. lia.
    + change (e < et)%Z in Hcmp. lia.
Qed.

Lemma within_range_bounded (x : number) :
  within_range x -> (x <=? 0) = false -> bounded_by (Prim2SF x) 499.
Proof.
  intros Hx Hle. exact (below_bounded x range_limit _ _ eq_refl Hx Hle).
Qed.

(** A bounded number is finite; an infinity is not. *)
Lemma bounded_finite (x : number) (k : Z) :
  bounded_by (Prim2SF x) k -> isFinite x = true.
Proof.
  unfold isFinite, is_finite, is_infinity, is_nan. intros H.
  rewrite !FloatAxioms.eqb_spec, abs_spec.
  change (Prim2SF infinity) with (S754_infinity false).
  destruct (Prim2SF x) as [s | s | | s m e]; try contradiction.
  - reflexivity.
  - unfold SFeqb. rewrite SFcompare_finite_refl. reflexivity.
Qed.

Lemma finite_isFinite (x : number) (s : bool) (m : positive) (e : Z) :
  Prim2SF x = S754_finite s m e -> isFinite x = true.
Proof.
  intros Hx. apply (bounded_finite x 1024). exact (finite_bounded x s m e Hx).
Qed.

Lemma infinity_not_finite (x : number) (s : bool) :
  Prim2SF x = S754_infinity s -> isFinite x = false.
Proof.
  unfold isFinite, is_finite, is_infinity. intros Hx.
  rewrite FloatAxioms.eqb_spec, abs_spec, Hx.
  change (Prim2SF infinity) with (S754_infinity false).
  cbn. now rewrite orb_true_r.
Qed.

Lemma mul_bounded (x y : number) (a b : Z) :
  bounded_by (Prim2SF x) a -> bounded_by (Prim2SF y) b ->
  (0 <= a)%Z -> (0 <= b)%Z -> (a + b <= 1023)%Z ->
  bounded_by (Prim2SF (x * y)) (a + b + 1).
Proof. intros. rewrite mul_spec. now apply SFmul_bounded. Qed.

Lemma thousand_spec :
  Prim2SF 1000 = S754_finite false 8796093022208000 (-43).
Proof. reflexivity. Qed.

Lemma thousand_bounded : bounded_by (Prim2SF 1000) 10.
Proof. rewrite thousand_spec. split; vm_compute; discriminate. Qed.

Lemma FL_OZ_TO_ML_bounded : bounded_by (Prim2SF FL_OZ_TO_ML) 5.
Proof. split; vm_compute; discriminate. Qed.

(** A positive number below [2 ^ a], divided by 1000. *)
Lemma div_thousand_bounded (x : number) (a : Z) :
  bounded_by (Prim2SF x) a -> (x <=? 0) = false ->
  (-990 <= a)%Z -> (a <= 1032)%Z ->
  bounded_by (Prim2SF (x / 1000)) (a - 8).
Proof.
  intros Hb Hle Hlow Hhigh. rewrite div_spec, thousand_spec.
  rewrite leb_spec in Hle. change (Prim2SF 0) with (S754_zero false) in Hle.
  destruct (Prim2SF x) as [s | s | | s m e] eqn:Hx; try contradiction.
  - destruct s; discriminate.
  - replace (a - 8)%Z with (a - (53 + -43) + 2)%Z by lia.
    apply SFdiv_bounded; [exact Hb | reflexivity | lia | lia | lia].
Qed.

(** What passes the guard [!x || x <= 0]: a positive finite number or
    [+Infinity]. *)
Lemma truthy_not_NaN (x : number) : truthy_number x = true -> isNaN x = false.
Proof.
  unfold truthy_number, isNaN. intros H. apply negb_true_iff in H.
  now apply orb_false_elim in H.
Qed.

Lemma guard_passed (x : number) :
  negb (truthy_number x) || (x <=? 0) = false ->
  (x <=? 0) = false /\ isNaN x = false.
Proof.
  intros H. apply orb_false_elim in H as [Htruthy Hle].
  apply negb_false_iff in Htruthy. split; [exact Hle |].
  now apply truthy_not_NaN.
Qed.

Lemma positive_spec (x : number) :
  (x <=? 0) = false -> isNaN x = false ->
  (exists m e, Prim2SF x = S754_finite false m e) \/
  Prim2SF x = S754_infinity false.
Proof. intros Hle Hnan. by_cases x; eauto. Qed.

(** The product of two positive numbers is not NaN. *)
Lemma mul_positive_not_NaN (x y : number) :
  (x <=? 0) = false -> isNaN x = false ->
  (y <=? 0) = false -> isNaN y = false ->
  isNaN (x * y) = false.
Proof.
  intros Hx Hnx Hy Hny. apply isNaN_false_iff. rewrite mul_spec.
  destruct (positive_spec x Hx Hnx) as [[mx [ex ->]] | ->],
           (positive_spec y Hy Hny) as [[my [ey ->]] | ->];
    cbn [SFmul]; try discriminate.
  apply binary_round_aux_not_nan. lia.
Qed.

(** The product of a number that is neither NaN nor zero and a positive
    number is not NaN. *)
Lemma mul_nonzero_not_NaN (x y : number) :
  isNaN x = false -> is_zero x = false ->
  (y <=? 0) = false -> isNaN y = false ->
  isNaN (x * y) = false.
Proof.
  intros Hnx Hzx Hy Hny. apply isNaN_false_iff. rewrite mul_spec.
  apply isNaN_false_iff in Hnx.
  unfold is_zero in Hzx. rewrite FloatAxioms.eqb_spec in Hzx.
  change (Prim2SF PrimFloat.zero) with (S754_zero false) in Hzx.
  destruct (positive_spec y Hy Hny) as [[my [ey ->]] | ->];
    destruct (Prim2SF x) as [sx | sx | | sx mx ex];
    cbn [SFmul]; try discriminate; try contradiction.
  apply binary_round_aux_not_nan. lia.
Qed.

(** Zero times [+Infinity] is NaN. *)
Lemma mul_zero_infinity (x y : number) :
  is_zero x = true -> Prim2SF y = S754_infinity false ->
  isNaN (x * y) = true.
Proof.
  intros Hzx Hy. unfold isNaN, is_nan.
  rewrite FloatAxioms.eqb_spec, mul_spec, Hy.
  unfold is_zero in Hzx. rewrite FloatAxioms.eqb_spec in Hzx.
  change (Prim2SF PrimFloat.zero) with (S754_zero false) in Hzx.
  destruct (Prim2SF x) as [sx | [|] | | [|] mx ex]; cbn in Hzx;
    try discriminate.
  reflexivity.
Qed.

(** The quotient of a positive number by 1000 is not NaN, and is finite
    exactly when the number is. *)
Lemma div_thousand_not_NaN (x : number) :
  (x <=? 0) = false -> isNaN x = false -> isNaN (x / 1000) = false.
Proof.
  intros Hle Hnan.
  destruct (positive_spec x Hle Hnan) as [[m [e Hx]] | Hx].
  - eapply div_not_NaN; [exact Hx | exact thousand_spec].
  - apply isNaN_false_iff. rewrite div_spec, Hx, thousand_spec. discriminate.
Qed.

Lemma div_thousand_finite (x : number) :
  (x <=? 0) = false -> isNaN x = false ->
  isFinite (x / 1000) = isFinite x.
Proof.
  intros Hle Hnan.
  destruct (positive_spec x Hle Hnan) as [[m [e Hx]] | Hx].
  - rewrite (finite_isFinite x _ _ _ Hx).
    apply (bounded_finite _ (1024 - 8)).
    apply div_thousand_bounded;
      [exact (finite_bounded x _ _ _ Hx) | exact Hle | lia | lia].
  - rewrite (infinity_not_finite x _ Hx).
    apply (infinity_not_finite _ false).
    rewrite div_spec, Hx, thousand_spec. reflexivity.
Qed.

End RangeFacts.

(** ** Numeric fields of the success results *)

Module FieldFacts.

Import JS Calc Props NumberFacts ArithFacts RangeFacts MixFacts.
#[local] Open Scope string_scope.
#[local] Open Scope list_scope.
#[local] Open Scope float_scope.

(** The item pushed for one product, on a tank size that passed the
    guard. *)
Lemma pushMixItem_regular (g : number) (chem : chemical) (item : mix_item) :
  (g <=? 0) = false -> isNaN g = false ->
  pushMixItem g [] chem = [item] ->
  echoes_stored_rate [chem] item /\
  ((forall rate, chem.(defaultRatePerGallon) = VNumber rate ->
      isNaN rate = false) ->
   none_NaN (item_numbers item)) /\
  (within_range g ->
   (forall rate, chem.(defaultRatePerGallon) = VNumber rate ->
      within_range rate) ->
   all_finite (item_numbers item) = true).
Proof.
  intros Hle Hnan. unfold pushMixItem.
  destruct (defaultRatePerGallon chem) as [| | b | rate | text] eqn:Hrate;
    try (intros [= <-]; repeat split; constructor).
  destruct (rate <=? 0) eqn:Hle'; intros [= <-];
    [repeat split; constructor |].
  split; [exists chem; split; [now left | exact Hrate] |]. split.
  - intros Hnot. specialize (Hnot rate eq_refl).
    pose proof (mul_positive_not_NaN rate g Hle' Hnot Hle Hnan) as HflOz.
    repeat constructor; try assumption.
    eapply mul_not_NaN; [exact HflOz | reflexivity].
  - intros Hg Hin. specialize (Hin rate eq_refl).
    pose proof (within_range_bounded rate Hin Hle') as Br.
    pose proof (within_range_bounded g Hg Hle) as Bg.
    pose proof (mul_bounded rate g 499 499 Br Bg
                  ltac:(lia) ltac:(lia) ltac:(lia)) as BflOz.
    pose proof (mul_bounded _ FL_OZ_TO_ML (499 + 499 + 1) 5 BflOz
                  FL_OZ_TO_ML_bounded ltac:(lia) ltac:(lia) ltac:(lia))
      as Bml.
    unfold all_finite. cbn [item_numbers forallb].
    rewrite (bounded_finite _ _ Br), (bounded_finite _ _ BflOz),
      (bounded_finite _ _ Bml). reflexivity.
Qed.

Lemma echoes_stored_rate_cons (chem : chemical)
    (chemicalsData : list chemical) (item : mix_item) :
  echoes_stored_rate chemicalsData item ->
  echoes_stored_rate (chem :: chemicalsData) item.
Proof.
  destruct item; [trivial |]. intros [c [Hin Hc]]. exists c.
  split; [now right | exact Hc].
Qed.

Lemma echoes_stored_rate_head (chem : chemical)
    (chemicalsData : list chemical) (item : mix_item) :
  echoes_stored_rate [chem] item ->
  echoes_stored_rate (chem :: chemicalsData) item.
Proof.
  destruct item; [trivial |]. intros [c [[<- | []] Hc]]. exists chem.
  split; [now left | exact Hc].
Qed.

(** The items pushed by the loop. *)
Lemma forEach_regular (g : number) (chemicalsData : list chemical)
    (items : list mix_item) :
  (g <=? 0) = false -> isNaN g = false ->
  Forall2 (fun chem item => pushMixItem g [] chem = [item])
    chemicalsData items ->
  Forall (echoes_stored_rate chemicalsData) items /\
  (no_NaN_rate chemicalsData -> none_NaN (flat_map item_numbers items)) /\
  (within_range g -> rates_within_range chemicalsData ->
   all_finite (flat_map item_numbers items) = true).
Proof.
  intros Hle Hnan Hall.
  induction Hall as [| chem item l l' Hpush _ [IH1 [IH2 IH3]]].
  - repeat split; constructor.
  - destruct (pushMixItem_regular g chem item Hle Hnan Hpush)
      as [H1 [H2 H3]].
    split; [| split].
    + constructor; [now apply echoes_stored_rate_head |].
      eapply Forall_impl; [| exact IH1].
      intros it. apply echoes_stored_rate_cons.
    + intros Hrates. cbn [flat_map]. apply Forall_app. split.
      * apply H2. intros r. apply Hrates. now left.
      * apply IH2. intros c r Hin. apply Hrates. now right.
    + intros Hg Hrates. cbn [flat_map]. unfold all_finite in *.
      rewrite forallb_app, H3, IH3; try assumption; try reflexivity.
      * intros c r Hin. apply Hrates. now right.
      * intros r. apply Hrates. now left.
Qed.

(** C3, as the code has it. A success echoes its inputs ([tankSize],
    [areaSqFt], [ratePerThousandSqFt]; each [ratePerGallon] is the stored
    rate of a product of the list) and [sprayVolume] is finite. No
    numeric field of a [calculateMix] success is NaN when no stored rate
    is NaN, whatever the tank size; a [calculateGranular] success has no
    NaN field exactly when the rate is finite or [areaThousands] is not
    zero. [areaThousands] is finite exactly when the area is. Every
    numeric field is finite when the tank size and the stored rates, or
    the area and the rate, are below [range_limit]; above it a product may
    overflow to [+Infinity]. *)
Theorem success_fields_regular :
  (forall g chemicalsData res,
     calculateMix (Some g) (Some chemicalsData) = Success res ->
     res.(tankSize) = g /\
     isFinite res.(sprayVolume) = true /\
     Forall (echoes_stored_rate chemicalsData) res.(mixItems) /\
     (no_NaN_rate chemicalsData -> none_NaN (mix_numbers res)) /\
     (within_range g -> rates_within_range chemicalsData ->
      all_finite (mix_numbers res) = true)) /\
  (forall area rate name res,
     calculateGranular (Some area) (Some rate) name = Success res ->
     res.(areaSqFt) = area /\
     res.(ratePerThousandSqFt) = rate /\
     isFinite res.(areaThousands) = isFinite area /\
     (none_NaN (granular_numbers res) <->
      isFinite rate = true \/ is_zero res.(areaThousands) = false) /\
     (within_range area -> within_range rate ->
      all_finite (granular_numbers res) = true)).
Proof.
  split.
  - intros g chemicalsData res. unfold calculateMix.
    destruct (negb (truthy_number g) || (g <=? 0)) eqn:Hguard;
      [discriminate |].
    destruct (guard_passed g Hguard) as [Hle Hnan].
    destruct (List.length chemicalsData =? 0)%nat; [discriminate |].
    destruct (forEach_pushMixItem g chemicalsData []) as [items [Hfold Hall]].
    rewrite Hfold. cbn [app]. intros [= <-].
    unfold mix_numbers. cbn [tankSize sprayVolume estimatedCoverageSqFt
      mixItems].
    destruct (forEach_regular g chemicalsData items Hle Hnan Hall)
      as [Hecho [Hnums Hfinite]].
    split; [reflexivity |]. split; [reflexivity |].
    split; [exact Hecho |]. split.
    + intros Hrates. unfold none_NaN. cbn [app]. repeat constructor.
      * exact Hnan.
      * eapply mul_not_NaN; [exact Hnan | reflexivity].
      * exact (Hnums Hrates).
    + intros Hg Hrates.
      pose proof (within_range_bounded g Hg Hle) as Bg.
      pose proof (mul_bounded g 1000 499 10 Bg thousand_bounded
                    ltac:(lia) ltac:(lia) ltac:(lia)) as Bcoverage.
      unfold all_finite in *. cbn [app forallb].
      rewrite (bounded_finite _ _ Bg), (bounded_finite _ _ Bcoverage),
        (Hfinite Hg Hrates). reflexivity.
  - intros area rate name res. unfold calculateGranular.
    destruct (negb (truthy_number area) || (area <=? 0)) eqn:Hguard;
      [discriminate |].
    destruct (guard_passed area Hguard) as [Hle Hnan].
    destruct (negb (truthy_number rate) || (rate <=? 0) || isNaN rate)
      eqn:Hguard'; [discriminate |].
    apply orb_false_elim in Hguard' as [Hguard' _].
    destruct (guard_passed rate Hguard') as [Hle' Hnan'].
    intros [= <-]. unfold granular_numbers, none_NaN, all_finite.
    cbn [areaSqFt areaThousands ratePerThousandSqFt totalLbs forallb].
    pose proof (div_thousand_not_NaN area Hle Hnan) as Hthousands.
    split; [reflexivity |]. split; [reflexivity |].
    split; [exact (div_thousand_finite area Hle Hnan) |]. split.
    + split.
      * intros Hall.
        destruct (isFinite rate) eqn:Hfin; [now left | right].
        destruct (is_zero (area / 1000)) eqn:Hzero; [| reflexivity].
        assert (Hinf : Prim2SF rate = S754_infinity false).
        { destruct (positive_spec rate Hle' Hnan') as [[m [e Hr]] | Hr];
            [| exact Hr].
          rewrite (finite_isFinite rate _ _ _ Hr) in Hfin. discriminate. }
        pose proof (mul_zero_infinity _ _ Hzero Hinf) as Htotal.
        pose proof (Forall_inv (Forall_inv_tail (Forall_inv_tail
                      (Forall_inv_tail Hall)))) as Hlast.
        cbn beta in Hlast. rewrite Htotal in Hlast. discriminate.
      * intros Hcase. repeat constructor; try assumption.
        destruct Hcase as [Hfin | Hzero].
        -- destruct (positive_finite_spec rate Hfin Hle') as [m [e Hr]].
           eapply mul_not_NaN; [exact Hthousands | exact Hr].
        -- now apply mul_nonzero_not_NaN.
    + intros Ha Hr.
      pose proof (within_range_bounded area Ha Hle) as Ba.
      pose proof (within_range_bounded rate Hr Hle') as Br.
      pose proof (div_thousand_bounded area 499 Ba Hle
                    ltac:(lia) ltac:(lia)) as Bt.
      pose proof (mul_bounded _ rate (499 - 8) 499 Bt Br
                    ltac:(lia) ltac:(lia) ltac:(lia)) as Btotal.
      rewrite (bounded_finite _ _ Ba), (bounded_finite _ _ Bt),
        (bounded_finite _ _ Br), (bounded_finite _ _ Btotal). reflexivity.
Qed.

(** An ordinary tank mix: no NaN, every field finite. The granular
    inputs whose product overflows: [areaThousands] is finite, no field is
    NaN, [totalLbs] is [+Infinity]. And an infinite rate on an area whose
    thousandth underflows to zero: a success with a NaN field. *)
Lemma success_fields_regular_case :
  let chem := {| id := "chem1"; name := "Chemical 1";
                 defaultRatePerGallon := VNumber 2.5;
                 mixRate := None |} in
  (no_NaN_rate [chem] /\ within_range 25 /\ rates_within_range [chem] /\
   exists res,
     calculateMix (Some 25) (Some [chem]) = Success res /\
     none_NaN (mix_numbers res) /\
     all_finite (mix_numbers res) = true) /\
  (isFinite 1e308 = true /\ isFinite 100000 = true /\
   exists res,
     calculateGranular (Some 1e308) (Some 100000) None = Success res /\
     isFinite res.(areaThousands) = true /\
     none_NaN (granular_numbers res) /\
     res.(totalLbs) = infinity) /\
  (exists res,
     calculateGranular (Some 5e-324) (Some infinity) None = Success res /\
     res.(areaThousands) = 0 /\
     ~ none_NaN (granular_numbers res)).
Proof.
  intros chem.
  assert (Hnot : no_NaN_rate [chem])
    by (intros c r [<- | []] [= <-]; reflexivity).
  assert (Hrates : rates_within_range [chem])
    by (intros c r [<- | []] [= <-]; reflexivity).
  split; [| split].
  - split; [exact Hnot | split; [reflexivity | split; [exact Hrates |]]].
    eexists. split; [reflexivity |].
    destruct (proj1 success_fields_regular 25 [chem] _ eq_refl)
      as [_ [_ [_ [Hnums Hfinite]]]].
    split; [exact (Hnums Hnot) | exact (Hfinite eq_refl Hrates)].
  - split; [reflexivity | split; [reflexivity |]].
    eexists. split; [reflexivity |].
    destruct (proj2 success_fields_regular 1e308 100000 None _ eq_refl)
      as [_ [_ [Hthousands [Hnums _]]]].
    split; [exact Hthousands |].
    split; [exact (proj2 Hnums (or_introl eq_refl)) | reflexivity].
  - eexists. split; [reflexivity |]. split; [reflexivity |].
    destruct (proj2 success_fields_regular 5e-324 infinity None _ eq_refl)
      as [_ [_ [_ [Hnums _]]]].
    intros Hall. destruct (proj1 Hnums Hall); discriminate.
Defined.

(** C3, as stated, fails: finite, valid inputs whose product overflows
    give a success with an infinite [totalLbs]; and an infinite tank size
    passes validation and is echoed. *)
Lemma success_with_infinite_field :
  (isFinite 1e308 = true /\ isFinite 100000 = true /\
   exists res,
     calculateGranular (Some 1e308) (Some 100000) None = Success res /\
     res.(totalLbs) = infinity /\
     all_finite (granular_numbers res) = false) /\
  (exists res,
     calculateMix (Some infinity)
       (Some [{| id := "chem1"; name := "Chemical 1";
                 defaultRatePerGallon := VNumber 2.5;
                 mixRate := None |}]) = Success res /\
     res.(tankSize) = infinity /\
     all_finite (mix_numbers res) = false).
Proof.
  split.
  - split; [reflexivity | split; [reflexivity |]].
    eexists. split; [reflexivity |]. split; reflexivity.
  - eexists. split; [reflexivity |]. split; reflexivity.
Qed.

End FieldFacts.

(** ** What a rendered Number is made of *)

Module RenderFacts.

Import JS Props.
#[local] Open Scope string_scope.

Lemma all_chars_app (test : ascii -> bool) (a b : string) :
  all_chars test (a ++ b) = all_chars test a && all_chars test b.
Proof.
  induction a as [| c a IH]; cbn; [reflexivity |].
  now rewrite IH, andb_assoc.
Qed.

Lemma all_chars_take (test : ascii -> bool) (n : nat) (s : string) :
  all_chars test s = true -> all_chars test (take n s) = true.
Proof.
  revert s. induction n as [| n IH]; intros [| c s]; cbn; try reflexivity.
  intros H. apply andb_prop in H as [Hc Hs]. now rewrite Hc, (IH s Hs).
Qed.

Lemma all_chars_drop (test : ascii -> bool) (n : nat) (s : string) :
  all_chars test s = true -> all_chars test (drop n s) = true.
Proof.
  revert s. induction n as [| n IH]; intros [| c s]; cbn; try easy.
  intros H. apply andb_prop in H as [_ Hs]. now apply IH.
Qed.

Lemma numeric_zeros (n : nat) : all_chars numeric_char (zeros n) = true.
Proof. induction n as [| n IH]; cbn; [reflexivity | exact IH]. Qed.

Lemma numeric_uint (d : Decimal.uint) :
  all_chars numeric_char (NilEmpty.string_of_uint d) = true.
Proof. induction d; cbn; auto. Qed.

Lemma numeric_decimal (n : Z) : all_chars numeric_char (decimal n) = true.
Proof.
  unfold decimal, NilZero.string_of_uint.
  destruct (N.to_uint (Z.to_N n)) eqn:E; try reflexivity;
    rewrite <- E; apply numeric_uint.
Qed.

Ltac numeric :=
  repeat (rewrite all_chars_app; apply andb_true_intro; split);
  auto using numeric_decimal, numeric_zeros, all_chars_take, all_chars_drop.

Lemma numeric_exponent_part (x : Z) :
  all_chars numeric_char (exponent_part x) = true.
Proof. unfold exponent_part. destruct (x <? 0)%Z; numeric. Qed.

Lemma numeric_layout (n k s : Z) : all_chars numeric_char (layout n k s) = true.
Proof.
  unfold layout.
  repeat match goal with |- context [if ?b then _ else _] => destruct b end;
    numeric; apply numeric_exponent_part.
Qed.

Lemma numeric_fixed_layout (n : Z) (f : nat) :
  all_chars numeric_char (fixed_layout n f) = true.
Proof.
  unfold fixed_layout. destruct f as [| f]; [apply numeric_decimal |].
  destruct (String.length (decimal n) <=? S f)%nat; numeric;
    apply all_chars_take || apply all_chars_drop; numeric.
Qed.

(** A Number rendered by a template literal is made of numeric
    characters only. *)
Lemma numeric_NumberToString (x : number) :
  all_chars numeric_char (NumberToString x) = true.
Proof.
  unfold NumberToString.
  destruct (Prim2SF x) as [s | [|] | | [|] m e]; try reflexivity;
    destruct (shortest 17 m e (exp10 m e) 1) as [[n k] d];
    numeric; apply numeric_layout.
Qed.

(** So is a Number rendered by [toFixed]. *)
Lemma numeric_toFixed (x : number) (f : nat) :
  all_chars numeric_char (toFixed x f) = true.
Proof.
  pose proof (numeric_NumberToString x) as Hstr.
  unfold toFixed.
  destruct (Prim2SF x) as [s | s | | [|] m e]; try exact Hstr;
    try apply numeric_fixed_layout;
    destruct (below_pow10 (frac_of_float m e) 21); try exact Hstr;
    numeric; apply numeric_fixed_layout.
Qed.

(** *** Characters and substrings *)

Lemma has_char_app (c : ascii) (a b : string) :
  has_char c (a ++ b) = has_char c a || has_char c b.
Proof.
  induction a as [| c' a IH]; cbn; [reflexivity |].
  now rewrite IH, orb_assoc.
Qed.

Lemma all_chars_has_char (test : ascii -> bool) (c : ascii) (s : string) :
  all_chars test s = true -> test c = false -> has_char c s = false.
Proof.
  intros Hall Hc. induction s as [| c' s IH]; cbn in *; [reflexivity |].
  apply andb_prop in Hall as [Hc' Hs]. rewrite (IH Hs), orb_false_r.
  destruct (Ascii.eqb_spec c c') as [-> |]; congruence.
Qed.

(** No rendered Number holds a capital P. *)
Lemma numeric_no_P (s : string) :
  all_chars numeric_char s = true -> has_char "P" s = false.
Proof. intros H. now apply (all_chars_has_char numeric_char). Qed.

Lemma prefix_has_char (c : ascii) (needle hay : string) :
  prefix (String c needle) hay = true -> has_char c hay = true.
Proof.
  destruct hay as [| c' hay]; cbn; [discriminate |].
  destruct (ascii_dec c c') as [<- |]; [| discriminate].
  now rewrite Ascii.eqb_refl.
Qed.

(** A string that includes a needle holds the needle's first character. *)
Lemma includes_has_char (c : ascii) (needle hay : string) :
  includes (String c needle) hay = true -> has_char c hay = true.
Proof.
  induction hay as [| c' hay IH]; cbn [includes]; intros H.
  - discriminate.
  - apply orb_prop in H as [H | H].
    + now apply (prefix_has_char c needle).
    + cbn. rewrite (IH H). apply orb_true_r.
Qed.

Lemma prefix_app (needle rest : string) : prefix needle (needle ++ rest) = true.
Proof.
  induction needle as [| c needle IH]; cbn; [now destruct rest |].
  destruct (ascii_dec c c); [exact IH | contradiction].
Qed.

Lemma includes_prefix (needle hay : string) :
  prefix needle hay = true -> includes needle hay = true.
Proof. intros H. destruct hay; cbn [includes]; now rewrite H. Qed.

(** A string includes whatever it was assembled from. *)
Lemma includes_app (needle before after : string) :
  includes needle (before ++ needle ++ after) = true.
Proof.
  induction before as [| c before IH]; cbn [append].
  - apply includes_prefix, prefix_app.
  - cbn [includes]. rewrite IH. apply orb_true_r.
Qed.

End RenderFacts.

(** ** The product line of the granular summary *)

Module FormatFacts.

Import JS Calc Props RenderFacts.
#[local] Open Scope string_scope.

Lemma append_assoc (a b c : string) : (a ++ b) ++ c = a ++ b ++ c.
Proof. induction a as [| x a IH]; cbn; [reflexivity | now rewrite IH]. Qed.

Lemma includes_app_r (needle before hay : string) :
  includes needle hay = true -> includes needle (before ++ hay) = true.
Proof.
  intros H. induction before as [| c before IH]; cbn [append includes];
    [exact H | rewrite IH; apply orb_true_r].
Qed.

(** Both sides of an equation between assembled strings, flattened. *)
Ltac flatten := rewrite ?append_assoc; cbn [append]; reflexivity.

(** The needle is in the hay, between [before] and [after]. *)
Ltac found before after :=
  match goal with
  | |- includes ?needle ?hay = true =>
      replace hay with (before ++ needle ++ after) by flatten;
      apply includes_app
  end.

(** C10: the summary of a success of [calculateGranular] includes the
    "Product:" line exactly when [productName] is not empty; with the name
    omitted it has no such line; and in either case it renders the area,
    the rate and the total pounds. *)
Theorem granular_product_line
    (area rate : option number) (name : option string)
    (res : granular_result) :
  calculateGranular area rate name = Success res ->
  exists html,
    formatGranularResultsHTML (granularObject (Success res)) = Returns html /\
    (includes "Product:" html = true <-> res.(productName) <> "") /\
    (res.(productName) <> "" -> includes (product_line res) html = true) /\
    (name = None -> includes "Product:" html = false) /\
    includes (area_line res) html = true /\
    includes (rate_line res) html = true /\
    includes (total_line res) html = true.
Proof.
  intros Hcalc.
  assert (Hname : name = None -> res.(productName) = "").
  { intros ->. unfold calculateGranular in Hcalc.
    repeat match type of Hcalc with
           | match ?x with _ => _ end = _ => destruct x; try discriminate
           | (if ?b then _ else _) = _ => destruct b; try discriminate
           end.
    now injection Hcalc as <-. }
  clear Hcalc. destruct res as [pn a thousands r total].
  cbn [productName] in Hname.
  unfold formatGranularResultsHTML, area_line, rate_line, total_line,
    product_line.
  cbn [granularObject productName areaSqFt areaThousands ratePerThousandSqFt
       totalLbs GranularObject.error GranularObject.productName
       GranularObject.areaSqFt GranularObject.areaThousands
       GranularObject.ratePerThousandSqFt GranularObject.totalLbs
       truthy_property interpolate].
  eexists. split; [reflexivity |].
  set (body := LF ++ "    <p><strong>Area:</strong> " ++ _).
  assert (Hbody : has_char "P" body = false).
  { subst body. rewrite !has_char_app.
    rewrite !(numeric_no_P _ (numeric_toFixed _ _)).
    rewrite (numeric_no_P _ (numeric_NumberToString _)). reflexivity. }
  assert (Harea : includes
    ("<p><strong>Area:</strong> " ++ toFixed a 0 ++ " sq ft ("
       ++ toFixed thousands 2 ++ " × 1,000 sq ft)</p>") body = true).
  { subst body.
    found (LF ++ "    ")
      (LF ++ "    <p><strong>Rate:</strong> " ++ NumberToString r
         ++ " lbs per 1,000 sq ft</p>" ++ LF
         ++ "    <p><strong>Total product needed:</strong> "
         ++ toFixed total 2 ++ " lbs</p>" ++ LF ++ "  "). }
  assert (Hrate : includes
    ("<p><strong>Rate:</strong> " ++ NumberToString r
       ++ " lbs per 1,000 sq ft</p>") body = true).
  { subst body.
    found (LF ++ "    <p><strong>Area:</strong> " ++ toFixed a 0
             ++ " sq ft (" ++ toFixed thousands 2
             ++ " × 1,000 sq ft)</p>" ++ LF ++ "    ")
      (LF ++ "    <p><strong>Total product needed:</strong> "
         ++ toFixed total 2 ++ " lbs</p>" ++ LF ++ "  "). }
  assert (Htotal : includes
    ("<p><strong>Total product needed:</strong> " ++ toFixed total 2
       ++ " lbs</p>") body = true).
  { subst body.
    found (LF ++ "    <p><strong>Area:</strong> " ++ toFixed a 0
             ++ " sq ft (" ++ toFixed thousands 2
             ++ " × 1,000 sq ft)</p>" ++ LF
             ++ "    <p><strong>Rate:</strong> " ++ NumberToString r
             ++ " lbs per 1,000 sq ft</p>" ++ LF ++ "    ")
      (LF ++ "  "). }
  clearbody body.
  destruct pn as [| c pn]; cbn [truthy_string].
  - (* no product name: the summary is the three lines *)
    cbn [append].
    assert (Hnone : includes "Product:" body = false).
    { destruct (includes "Product:" body) eqn:E; [| reflexivity].
      apply includes_has_char in E. congruence. }
    repeat split; try assumption.
    + rewrite Hnone. discriminate.
    + intros H. now contradiction H.
    + intros H. now contradiction H.
    + intros _. exact Hnone.
  - (* a product name: its line comes first *)
    assert (Hline : includes "Product:"
      (("" ++ "<p><strong>Product:</strong> " ++ String c pn ++ "</p>")
         ++ body) = true).
    { found "<p><strong>" ("</strong> " ++ String c pn ++ "</p>" ++ body). }
    repeat split; try (now apply includes_app_r).
    + discriminate.
    + intros _. found "" body.
    + intros H. specialize (Hname H). discriminate.
Qed.

(** The summary of 2500 sq ft at 3.5 lbs with the name omitted. *)
Lemma granular_product_line_case :
  calculateGranular (Some 2500%float) (Some 3.5%float) None =
    Success {| productName := ""; areaSqFt := 2500%float;
               areaThousands := 2.5%float;
               ratePerThousandSqFt := 3.5%float;
               totalLbs := 8.75%float |} /\
  exists html,
    formatGranularResultsHTML
      (granularObject
         (calculateGranular (Some 2500%float) (Some 3.5%float) None)) =
      Returns html /\
    includes "Product:" html = false /\
    includes "<p><strong>Area:</strong> 2500 sq ft (2.50 × 1,000 sq ft)</p>"
      html = true /\
    includes "<p><strong>Rate:</strong> 3.5 lbs per 1,000 sq ft</p>"
      html = true /\
    includes "<p><strong>Total product needed:</strong> 8.75 lbs</p>"
      html = true.
Proof.
  split; [reflexivity |].
  destruct (granular_product_line (Some 2500%float) (Some 3.5%float) None _
              eq_refl)
    as [html [Hhtml [_ [_ [Hnone [Harea [Hrate Htotal]]]]]]].
  exists html. split; [exact Hhtml |].
  split; [exact (Hnone eq_refl) |].
  injection Hhtml as <-.
  split; [exact Harea | split; [exact Hrate | exact Htotal]].
Defined.

End FormatFacts.

(** ** The repository's unit tests, run on the model *)

Module UnitTests.

Import JS Calc Props.
#[local] Open Scope string_scope.
#[local] Open Scope list_scope.
#[local] Open Scope float_scope.

Example test_mix_invalid_tank :
  calculateMix (Some 0) (Some []) = Error tank_error.
Proof. reflexivity. Qed.

Example test_mix_no_chemicals :
  calculateMix (Some 25) (Some []) = Error chemical_error.
Proof. reflexivity. Qed.

Example test_mix_valid_inputs :
  calculateMix (Some 25)
    (Some [{| id := "chem1"; name := "Test Chemical";
              defaultRatePerGallon := VNumber 2.5;
              mixRate := Some "2.5 fl oz/gal" |}]) =
  Success {|
    tankSize := 25;
    sprayVolume := 1;
    estimatedCoverageSqFt := 25000;
    mixItems := [ComputedItem "chem1" "Test Chemical" 2.5 62.5 1848.125];
    mixText := "Test Chemical: 62.50 fl oz (~1848 mL) at 2.5 fl oz/gal"
  |}.
Proof. reflexivity. Qed.

Example test_mix_without_stored_rate :
  calculateMix (Some 25)
    (Some [{| id := "chem1"; name := "Test Chemical";
              defaultRatePerGallon := VUndefined;
              mixRate := Some "See label" |}]) =
  Success {|
    tankSize := 25;
    sprayVolume := 1;
    estimatedCoverageSqFt := 25000;
    mixItems := [FallbackItem "chem1" "Test Chemical" "See label"];
    mixText := ""
  |}.
Proof. reflexivity. Qed.

Example test_mix_multiple_chemicals :
  match calculateMix (Some 10)
          (Some [{| id := "chem1"; name := "Chemical 1";
                    defaultRatePerGallon := VNumber 2; mixRate := None |};
                 {| id := "chem2"; name := "Chemical 2";
                    defaultRatePerGallon := VNumber 1.5; mixRate := None |}])
  with
  | Success res =>
      res.(mixItems) =
        [ComputedItem "chem1" "Chemical 1" 2 20 591.4;
         ComputedItem "chem2" "Chemical 2" 1.5 15 443.55] /\
      res.(mixText) =
        ("Chemical 1: 20.00 fl oz (~591 mL) at 2 fl oz/gal" ++ LF
           ++ "Chemical 2: 15.00 fl oz (~444 mL) at 1.5 fl oz/gal")%string
  | Error _ => False
  end.
Proof. split; reflexivity. Qed.

Example test_granular_invalid_area :
  calculateGranular (Some 0) (Some 5) None = Error area_error.
Proof. reflexivity. Qed.

Example test_granular_invalid_rate :
  calculateGranular (Some 5000) (Some 0) None = Error rate_error.
Proof. reflexivity. Qed.

Example test_granular_NaN_rate :
  calculateGranular (Some 5000) (Some nan) None = Error rate_error.
Proof. reflexivity. Qed.

Example test_granular_without_name :
  calculateGranular (Some 1000) (Some 2) None =
  Success {| productName := ""; areaSqFt := 1000; areaThousands := 1;
             ratePerThousandSqFt := 2; totalLbs := 2 |}.
Proof. reflexivity. Qed.

Example test_format_mix_valid :
  match formatMixResultsHTML
          {| MixObject.error := None;
             MixObject.tankSize := Some 25;
             MixObject.sprayVolume := Some 1;
             MixObject.estimatedCoverageSqFt := Some 25000;
             MixObject.mixItems :=
               Some [ComputedItem "" "Chemical 1" 2 50 1478.5];
             MixObject.mixText := None |}
  with
  | Returns html =>
      includes "25 gallons" html = true /\
      includes "25000 sq ft" html = true /\
      includes "Chemical 1: 50.00 fl oz (≈ 1479 mL)" html = true
  | ThrowsTypeError => False
  end.
Proof. repeat split; reflexivity. Qed.

Example test_format_granular_valid :
  formatGranularResultsHTML
    {| GranularObject.error := None;
       GranularObject.productName := Some "Test Product";
       GranularObject.areaSqFt := Some 5000;
       GranularObject.areaThousands := Some 5;
       GranularObject.ratePerThousandSqFt := Some 4;
       GranularObject.totalLbs := Some 20 |} =
  Returns
    ("<p><strong>Product:</strong> Test Product</p>" ++ LF
       ++ "    <p><strong>Area:</strong> 5000 sq ft (5.00 × 1,000 sq ft)</p>"
       ++ LF
       ++ "    <p><strong>Rate:</strong> 4 lbs per 1,000 sq ft</p>" ++ LF
       ++ "    <p><strong>Total product needed:</strong> 20.00 lbs</p>" ++ LF
       ++ "  ")%string.
Proof. reflexivity. Qed.

(** An object with an empty [error] and nothing else makes both
    formatters throw. *)
Example test_format_empty_error :
  formatMixResultsHTML (mixObject (Error "")) = ThrowsTypeError /\
  formatGranularResultsHTML (granularObject (Error "")) = ThrowsTypeError.
Proof. split; reflexivity. Qed.

(** Number rendering: shortest digits, exponent forms, fixed digits. *)
Example test_number_rendering :
  map NumberToString [2.5; 25; 0.1; 1e21; 1e-7; 123456789012345680000; -0] =
    ["2.5"; "25"; "0.1"; "1e+21"; "1e-7"; "123456789012345680000"; "0"] /\
  map (fun x => toFixed x 2) [62.5; 1.005; 8.345; -0.001; 1e21] =
    ["62.50"; "1.00"; "8.35"; "-0.00"; "1e+21"] /\
  map (fun x => toFixed x 0) [1848.125; 1478.5; 2.5; 0.5; 25000] =
    ["1848"; "1479"; "3"; "1"; "25000"].
Proof. repeat split; vm_compute; reflexivity. Qed.

End UnitTests.

(** ** When the calculators succeed, and on what *)

Module OutcomeFacts.

Import JS Calc Props Terms NumberFacts.
#[local] Open Scope string_scope.
#[local] Open Scope list_scope.
#[local] Open Scope float_scope.

(** The guard [!x || x <= 0] lets exactly the strictly positive numbers
    through; in particular it stops [NaN]. *)
Lemma guard_false_iff (x : number) :
  negb (truthy_number x) || (x <=? 0) = false <-> strictly_positive x.
Proof.
  split; [| apply guard_positive].
  intros H. apply orb_false_elim in H as [Htruthy Hle].
  apply negb_false_iff in Htruthy. by_cases x.
Qed.

Lemma guard_true_iff (x : number) :
  negb (truthy_number x) || (x <=? 0) = true <-> ~ strictly_positive x.
Proof.
  rewrite <- guard_false_iff.
  destruct (negb (truthy_number x) || (x <=? 0)); split; congruence.
Qed.

Lemma positive_arg_Some (x : number) :
  positive_arg (Some x) <-> strictly_positive x.
Proof.
  split; [intros [y [[= <-] Hy]]; exact Hy | intros H; now exists x].
Qed.

Lemma positive_arg_None : ~ positive_arg None.
Proof. intros [x [H _]]. discriminate. Qed.

Lemma non_empty_array_spec (arg : option (list chemical)) :
  non_empty_array arg <->
  match arg with Some (_ :: _) => True | _ => False end.
Proof.
  destruct arg as [[| chem rest] |]; split; try easy.
  - intros [l [[= <-] Hl]]. now apply Hl.
  - intros _. now exists (chem :: rest).
  - intros [l [H _]]. discriminate.
Qed.

(** Each of the three statements about one evaluated outcome. *)
Ltac settle :=
  repeat split; intros;
  repeat match goal with
         | H : _ /\ _ |- _ => destruct H
         | H : exists res, _ = Success res |- _ => destruct H as [? H]
         end;
  try discriminate; try contradiction; try tauto;
  try (eexists; reflexivity).

(** X1: the outcomes of [calculateMix] on a tank size that is a Number or
    omitted and a product list that is an array of product objects or not
    an array: the tank-size error exactly when the tank size is omitted or
    is a Number that is not strictly positive (zero, negative or NaN); the
    chemical error exactly when the tank size is strictly positive and
    the product list is not a non-empty array; a success exactly when both
    are valid. Arguments of other types are not covered. *)
Theorem calculateMix_outcomes
    (tankSizeGallons : option number)
    (chemicalsData : option (list chemical)) :
  (calculateMix tankSizeGallons chemicalsData = Error tank_error <->
   ~ positive_arg tankSizeGallons) /\
  (calculateMix tankSizeGallons chemicalsData = Error chemical_error <->
   positive_arg tankSizeGallons /\ ~ non_empty_array chemicalsData) /\
  ((exists res, calculateMix tankSizeGallons chemicalsData = Success res) <->
   positive_arg tankSizeGallons /\ non_empty_array chemicalsData).
Proof.
  rewrite (non_empty_array_spec chemicalsData). unfold calculateMix.
  destruct tankSizeGallons as [g |].
  - rewrite positive_arg_Some.
    destruct (negb (truthy_number g) || (g <=? 0)) eqn:Hguard.
    + apply guard_true_iff in Hguard. settle.
    + apply guard_false_iff in Hguard.
      destruct chemicalsData as [[| chem rest] |];
        cbn [List.length Nat.eqb]; settle.
  - pose proof positive_arg_None. settle.
Qed.

(** X2: the outcomes of [calculateGranular] on an area and a rate that are
    each a Number or omitted, for every product name: the area error
    exactly when the area is omitted or is a Number that is not strictly
    positive; the rate error exactly when the area is strictly positive
    and the rate is not; a success exactly when both are strictly
    positive. Arguments of other types are not covered. *)
Theorem calculateGranular_outcomes
    (area rate : option number) (name : option string) :
  (calculateGranular area rate name = Error area_error <->
   ~ positive_arg area) /\
  (calculateGranular area rate name = Error rate_error <->
   positive_arg area /\ ~ positive_arg rate) /\
  ((exists res, calculateGranular area rate name = Success res) <->
   positive_arg area /\ positive_arg rate).
Proof.
  pose proof positive_arg_None as Hnone. unfold calculateGranular.
  destruct area as [a |]; [| settle].
  rewrite positive_arg_Some.
  destruct (negb (truthy_number a) || (a <=? 0)) eqn:Hguard.
  - apply guard_true_iff in Hguard. settle.
  - apply guard_false_iff in Hguard.
    destruct rate as [r |]; [| settle].
    rewrite positive_arg_Some.
    destruct (negb (truthy_number r) || (r <=? 0)) eqn:Hrate.
    + apply guard_true_iff in Hrate. cbn [orb]. settle.
    + apply guard_false_iff in Hrate.
      rewrite (positive_not_NaN r Hrate). cbn [orb]. settle.
Qed.

End OutcomeFacts.

(** ** No amount is negative *)

Module SignFacts.

Import JS Calc Props Terms NumberFacts ArithFacts MixFacts OutcomeFacts.

Section Signs.
#[local] Open Scope Z_scope.

Variables prec emax : Z.

(** Rounding a non-negative mantissa keeps the sign it is given. *)
Lemma binary_round_aux_sign (s : bool) (m e : Z) (l : location) :
  0 <= m ->
  binary_round_aux prec emax s m e l = S754_zero s \/
  binary_round_aux prec emax s m e l = S754_infinity s \/
  exists m' e', binary_round_aux prec emax s m e l = S754_finite s m' e'.
Proof.
  intros H. unfold binary_round_aux.
  pose proof (shr_fexp_nonneg prec emax m e l H) as H1.
  destruct (shr_fexp prec emax m e l) as [mrs' e'] eqn:E1. cbn [fst] in H1.
  pose proof (shr_fexp_nonneg prec emax
    (round_nearest_even (shr_m mrs') (loc_of_shr_record mrs')) e' loc_Exact
    (round_nearest_even_nonneg _ _ H1)) as H2.
  destruct (shr_fexp prec emax (round_nearest_even _ _) e' loc_Exact)
    as [mrs'' e''] eqn:E2. cbn [fst] in H2.
  destruct (shr_m mrs'') as [| p | p]; [now left | | lia].
  destruct (e'' <=? emax - prec); [right; right; eauto | right; now left].
Qed.

Lemma sf_not_negative_round (m e : Z) (l : location) :
  0 <= m -> sf_not_negative (binary_round_aux prec emax false m e l).
Proof.
  intros H.
  destruct (binary_round_aux_sign false m e l H) as [-> | [-> | [m' [e' ->]]]];
    reflexivity.
Qed.

Lemma SFmul_not_negative (x y : spec_float) :
  sf_not_negative x -> sf_not_negative y ->
  sf_not_negative (SFmul prec emax x y).
Proof.
  unfold sf_not_negative.
  destruct x as [[|] | [|] | | [|] mx ex], y as [[|] | [|] | | [|] my ey];
    cbn; try congruence; intros _ _.
  apply sf_not_negative_round. lia.
Qed.

(** Dividing by a positive finite number keeps a number not negative. *)
Lemma SFdiv_not_negative (x : spec_float) (my : positive) (ey : Z) :
  sf_not_negative x ->
  sf_not_negative (SFdiv prec emax x (S754_finite false my ey)).
Proof.
  unfold sf_not_negative.
  destruct x as [[|] | [|] | | [|] mx ex];
    cbn [SFdiv SFltb SFcompare xorb]; try congruence; intros _.
  unfold SFdiv_core_binary.
  set (s := _ - _ - _).
  set (m' := match s with Z0 => Z.pos mx | Zpos _ => Z.shiftl (Z.pos mx) s
             | Zneg _ => 0 end).
  assert (Hm' : 0 <= m').
  { subst m'. destruct s; try lia. apply Z.shiftl_nonneg. lia. }
  pose proof (Z.div_pos m' (Z.pos my) Hm' ltac:(lia)) as Hq.
  unfold Z.div in Hq.
  destruct (Z.div_eucl m' (Z.pos my)) as [q r].
  apply sf_not_negative_round. exact Hq.
Qed.

End Signs.

#[local] Open Scope string_scope.
#[local] Open Scope list_scope.
#[local] Open Scope float_scope.

Lemma not_negative_spec (x : number) :
  not_negative x <-> sf_not_negative (Prim2SF x).
Proof. unfold not_negative, sf_not_negative. now rewrite ltb_spec. Qed.

Lemma mul_not_negative (x y : number) :
  not_negative x -> not_negative y -> not_negative (x * y).
Proof.
  rewrite !not_negative_spec, mul_spec. apply SFmul_not_negative.
Qed.

Lemma div_not_negative (x y : number) (my : positive) (ey : Z) :
  not_negative x -> Prim2SF y = S754_finite false my ey ->
  not_negative (x / y).
Proof.
  rewrite !not_negative_spec, div_spec. intros Hx ->.
  now apply SFdiv_not_negative.
Qed.

(** A number that is not [<= 0] is not [< 0] either (it may be NaN). *)
Lemma not_le_zero_not_negative (x : number) :
  (x <=? 0) = false -> not_negative x.
Proof. unfold not_negative. intros H. by_cases x. Qed.

Lemma pushMixItem_not_negative (g : number) (chem : chemical)
    (item : mix_item) :
  not_negative g ->
  pushMixItem g [] chem = [item] ->
  Forall not_negative (item_numbers item).
Proof.
  intros Hg. unfold pushMixItem.
  destruct (defaultRatePerGallon chem) as [| | b | rate | text];
    try (intros [= <-]; constructor).
  destruct (rate <=? 0) eqn:Hle; intros [= <-]; [constructor |].
  pose proof (not_le_zero_not_negative rate Hle) as Hrate.
  pose proof (mul_not_negative rate g Hrate Hg) as HflOz.
  repeat constructor; try assumption.
  apply mul_not_negative; [exact HflOz | reflexivity].
Qed.

(** X3: no success result of either calculator holds a negative number: every
    numeric field is zero, positive or NaN, whatever the inputs were. *)
Theorem success_fields_not_negative :
  (forall tankSizeGallons chemicalsData res,
     calculateMix tankSizeGallons chemicalsData = Success res ->
     Forall not_negative (mix_numbers res)) /\
  (forall area rate name res,
     calculateGranular area rate name = Success res ->
     Forall not_negative (granular_numbers res)).
Proof.
  split.
  - intros [g |] [chemicalsData |] res; unfold calculateMix;
      try discriminate;
      destruct (negb (truthy_number g) || (g <=? 0)) eqn:Hguard;
      try discriminate.
    apply orb_false_elim in Hguard as [_ Hle].
    pose proof (not_le_zero_not_negative g Hle) as Hg.
    destruct (List.length chemicalsData =? 0)%nat; [discriminate |].
    destruct (forEach_pushMixItem g chemicalsData []) as [items [Hfold Hall]].
    rewrite Hfold. cbn [app]. intros [= <-].
    unfold mix_numbers. cbn [tankSize sprayVolume estimatedCoverageSqFt
      mixItems app].
    repeat constructor; try assumption.
    + apply mul_not_negative; [exact Hg | reflexivity].
    + clear Hfold. induction Hall as [| chem item l l' Hpush _ IH];
        [constructor |].
      cbn [flat_map]. apply Forall_app. split; [| exact IH].
      now apply (pushMixItem_not_negative g chem).
  - intros [a |] [r |] name res; unfold calculateGranular;
      try discriminate;
      destruct (negb (truthy_number a) || (a <=? 0)) eqn:Hguard;
      try discriminate.
    apply orb_false_elim in Hguard as [_ Hle].
    destruct (negb (truthy_number r) || (r <=? 0) || isNaN r) eqn:Hguard';
      [discriminate |].
    apply orb_false_elim in Hguard' as [Hguard' _].
    apply orb_false_elim in Hguard' as [_ Hle'].
    pose proof (not_le_zero_not_negative a Hle) as Ha.
    pose proof (not_le_zero_not_negative r Hle') as Hr.
    intros [= <-]. unfold granular_numbers.
    cbn [areaSqFt areaThousands ratePerThousandSqFt totalLbs].
    assert (Hthousands : not_negative (a / 1000)).
    { eapply div_not_negative; [exact Ha | reflexivity]. }
    repeat constructor; try assumption.
    now apply mul_not_negative.
Qed.

(** A NaN rate and a tiny area with an infinite rate: NaN amounts, none
    negative. *)
Lemma success_fields_not_negative_cases :
  let chem := {| id := "chem1"; name := "Test Chemical";
                 defaultRatePerGallon := VNumber nan;
                 mixRate := None |} in
  (exists res,
     calculateMix (Some 25) (Some [chem]) = Success res /\
     res.(mixItems) = [ComputedItem "chem1" "Test Chemical" nan nan nan] /\
     Forall not_negative (mix_numbers res)) /\
  (exists res,
     calculateGranular (Some 5e-324) (Some infinity) None = Success res /\
     res.(totalLbs) = nan /\
     Forall not_negative (granular_numbers res)).
Proof.
  intros chem. split.
  - eexists. split; [reflexivity | split; [reflexivity |]].
    exact (proj1 success_fields_not_negative (Some 25) (Some [chem]) _
             eq_refl).
  - eexists. split; [reflexivity | split; [reflexivity |]].
    exact (proj2 success_fields_not_negative (Some 5e-324) (Some infinity)
             None _ eq_refl).
Defined.

End SignFacts.

(** ** The text summary and the rendered summaries *)

Module SummaryFacts.

Import JS Calc Props Terms NumberFacts RenderFacts FormatFacts OutcomeFacts.
#[local] Open Scope list_scope.
#[local] Open Scope string_scope.

Lemma append_nil_r (s : string) : s ++ "" = s.
Proof. induction s as [| c s IH]; cbn; [reflexivity | now rewrite IH]. Qed.

Lemma includes_refl (s : string) : includes s s = true.
Proof.
  apply includes_prefix. rewrite <- (append_nil_r s) at 2. apply prefix_app.
Qed.

Lemma includes_app_l (needle hay after : string) :
  includes needle hay = true -> includes needle (hay ++ after) = true.
Proof.
  revert needle. induction hay as [| c hay IH]; intros needle H.
  - destruct needle as [| c' needle]; [| discriminate].
    destruct after; reflexivity.
  - cbn [includes] in H. apply orb_prop in H as [H | H].
    + apply includes_prefix. revert H. clear IH.
      generalize (String c hay) as h. clear c hay.
      induction needle as [| x needle IHn]; intros [| y h] H;
        cbn in *; try discriminate; try reflexivity.
      * now destruct after.
      * destruct (ascii_dec x y); [now apply IHn | discriminate].
    + cbn [append includes]. rewrite (IH needle H). apply orb_true_r.
Qed.

(** Every part is found in the joined string. *)
Lemma includes_join (sep part : string) (parts : list string) :
  In part parts -> includes part (join sep parts) = true.
Proof.
  induction parts as [| p rest IH]; [contradiction |].
  intros [-> | Hin].
  - destruct rest as [| q rest]; cbn [join].
    + apply includes_refl.
    + apply includes_app_l, includes_refl.
  - destruct rest as [| q rest]; [contradiction |].
    change (join sep (p :: q :: rest))
      with (p ++ sep ++ join sep (q :: rest)).
    now apply includes_app_r, includes_app_r, IH.
Qed.

Lemma calculateMix_mixText
    (tankSizeGallons : option number)
    (chemicalsData : option (list chemical)) (res : mix_result) :
  calculateMix tankSizeGallons chemicalsData = Success res ->
  res.(mixText) =
    join LF (map mixTextLine (filter hasStoredRate res.(mixItems))).
Proof.
  unfold calculateMix.
  repeat match goal with
         | |- match ?x with _ => _ end = _ -> _ => destruct x
         | |- (if ?b then _ else _) = _ -> _ => destruct b
         end; try discriminate.
  now intros [= <-].
Qed.

(** X4: [mixText] holds the line of every item that has a stored rate, and it
    is the empty string when no item has one, however many fallback items
    [mixItems] holds. *)
Theorem mixText_lines
    (tankSizeGallons : option number)
    (chemicalsData : option (list chemical)) (res : mix_result) :
  calculateMix tankSizeGallons chemicalsData = Success res ->
  (forall item, In item res.(mixItems) -> hasStoredRate item = true ->
     includes (mixTextLine item) res.(mixText) = true) /\
  ((forall item, In item res.(mixItems) -> hasStoredRate item = false) ->
   res.(mixText) = "").
Proof.
  intros Hcalc. rewrite (calculateMix_mixText _ _ _ Hcalc). split.
  - intros item Hin Hstored. apply includes_join, in_map.
    apply filter_In. now split.
  - intros Hnone.
    assert (Hfilter : filter hasStoredRate (mixItems res) = []).
    { induction (mixItems res) as [| item items IH]; [reflexivity |].
      cbn [filter]. rewrite (Hnone item (or_introl eq_refl)).
      apply IH. intros i Hi. apply Hnone. now right. }
    now rewrite Hfilter.
Qed.

Lemma mixText_lines_cases :
  let stored := {| id := "chem1"; name := "Chemical 1";
                   defaultRatePerGallon := VNumber 2%float;
                   mixRate := None |} in
  let unrated := {| id := "chem2"; name := "Chemical 2";
                    defaultRatePerGallon := VString "2 oz";
                    mixRate := Some "See label" |} in
  (exists res,
     calculateMix (Some 10%float) (Some [unrated; stored]) = Success res /\
     includes "Chemical 1: 20.00 fl oz (~591 mL) at 2 fl oz/gal"
       res.(mixText) = true) /\
  (exists res,
     calculateMix (Some 10%float) (Some [unrated; unrated]) = Success res /\
     List.length res.(mixItems) = 2%nat /\ res.(mixText) = "").
Proof.
  intros stored unrated. split.
  - eexists. split; [reflexivity |].
    apply (proj1 (mixText_lines (Some 10%float) (Some [unrated; stored]) _
                    eq_refl)
             (ComputedItem "chem1" "Chemical 1" 2%float 20%float
                591.4%float)).
    + right. left. reflexivity.
    + reflexivity.
  - eexists. split; [reflexivity | split; [reflexivity |]].
    apply (proj2 (mixText_lines (Some 10%float) (Some [unrated; unrated]) _
                    eq_refl)).
    intros item [<- | [<- | []]]; reflexivity.
Defined.

(** The messages of the calculators are these four, none of them empty. *)
Lemma calculateMix_error_messages
    (tankSizeGallons : option number)
    (chemicalsData : option (list chemical)) (msg : string) :
  calculateMix tankSizeGallons chemicalsData = Error msg ->
  msg = tank_error \/ msg = chemical_error.
Proof.
  unfold calculateMix.
  repeat match goal with
         | |- match ?x with _ => _ end = _ -> _ => destruct x
         | |- (if ?b then _ else _) = _ -> _ => destruct b
         end; intros [= <-]; auto.
Qed.

Lemma calculateGranular_error_messages
    (area rate : option number) (name : option string) (msg : string) :
  calculateGranular area rate name = Error msg ->
  msg = area_error \/ msg = rate_error.
Proof.
  unfold calculateGranular.
  repeat match goal with
         | |- match ?x with _ => _ end = _ -> _ => destruct x
         | |- (if ?b then _ else _) = _ -> _ => destruct b
         end; intros [= <-]; auto.
Qed.

(** X5: an error of a calculator carries one of its two fixed messages,
    none of them empty, and the formatter given that error result returns
    the message unchanged: the rendering code, which would throw on an
    error object, is not reached. *)
Theorem calculator_errors_rendered :
  (forall tankSizeGallons chemicalsData msg,
     calculateMix tankSizeGallons chemicalsData = Error msg ->
     (msg = tank_error \/ msg = chemical_error) /\ msg <> "" /\
     formatMixResultsHTML
       (mixObject (calculateMix tankSizeGallons chemicalsData)) =
       Returns msg) /\
  (forall area rate name msg,
     calculateGranular area rate name = Error msg ->
     (msg = area_error \/ msg = rate_error) /\ msg <> "" /\
     formatGranularResultsHTML
       (granularObject (calculateGranular area rate name)) = Returns msg).
Proof.
  split.
  - intros t c msg Hcalc. rewrite Hcalc.
    pose proof (calculateMix_error_messages t c msg Hcalc) as Hmsg.
    split; [exact Hmsg |].
    destruct Hmsg as [-> | ->]; split; try discriminate; reflexivity.
  - intros a r n msg Hcalc. rewrite Hcalc.
    pose proof (calculateGranular_error_messages a r n msg Hcalc) as Hmsg.
    split; [exact Hmsg |].
    destruct Hmsg as [-> | ->]; split; try discriminate; reflexivity.
Qed.

(** A tank size of zero, and a granular product without a rate. *)
Lemma calculator_errors_rendered_case :
  formatMixResultsHTML (mixObject (calculateMix (Some 0%float) None)) =
    Returns "Enter a valid tank size in gallons." /\
  formatGranularResultsHTML
    (granularObject (calculateGranular (Some 5000%float) None None)) =
    Returns rate_error.
Proof.
  split.
  - exact (proj2 (proj2 (proj1 calculator_errors_rendered
                            (Some 0%float) None _ eq_refl))).
  - exact (proj2 (proj2 (proj2 calculator_errors_rendered
                            (Some 5000%float) None None _ eq_refl))).
Defined.

End SummaryFacts.

(** ** The rendered tank-mix summary, and when a formatter throws *)

Module MixSummaryFacts.

Import JS Calc Props Terms RenderFacts FormatFacts SummaryFacts.
#[local] Open Scope list_scope.
#[local] Open Scope string_scope.

Lemma appendMixItem_append (html : string) (item : mix_item) :
  appendMixItem html item = html ++ list_item item.
Proof. destruct item; reflexivity. Qed.

Lemma join_empty_cons (part : string) (parts : list string) :
  join "" (part :: parts) = part ++ join "" parts.
Proof.
  destruct parts as [| q parts]; cbn [join];
    [now rewrite append_nil_r | reflexivity].
Qed.

(** The loop appends the elements of the items, one after the other. *)
Lemma forEach_appendMixItem (items : list mix_item) (html : string) :
  fold_left appendMixItem items html =
    html ++ join "" (map list_item items).
Proof.
  revert html. induction items as [| item items IH]; intros html.
  - cbn. now rewrite append_nil_r.
  - cbn [fold_left map]. rewrite IH, join_empty_cons, appendMixItem_append.
    apply append_assoc.
Qed.

(** X6: A tank-mix summary renders every item: for an object with no truthy
    [error], an [estimatedCoverageSqFt] and an array of items, the string
    returned ends with the [<li>] elements of the items, in their order,
    and the closing [</ul>]; it includes the element of each item, the
    tank-size line and the coverage line. *)
Theorem formatMix_renders_items
    (results : MixObject.t) (coverage : number) (items : list mix_item) :
  truthy_property results.(MixObject.error) = false ->
  results.(MixObject.estimatedCoverageSqFt) = Some coverage ->
  results.(MixObject.mixItems) = Some items ->
  exists html,
    formatMixResultsHTML results = Returns html /\
    (exists head,
       html = head ++ join "" (map list_item items) ++ "</ul>") /\
    (forall item, In item items -> includes (list_item item) html = true) /\
    includes
      ("<p><strong>Tank size:</strong> "
         ++ interpolate results.(MixObject.tankSize) ++ " gallons</p>")
      html = true /\
    includes
      ("<p><strong>Estimated coverage:</strong> " ++ toFixed coverage 0
         ++ " sq ft</p>")
      html = true.
Proof.
  intros Herror Hcoverage Hitems. unfold formatMixResultsHTML.
  rewrite Herror, Hcoverage, Hitems, forEach_appendMixItem.
  eexists. split; [reflexivity |].
  set (lis := join "" (map list_item items)).
  split; [| split; [| split]].
  - match goal with
    | |- exists head, (?h ++ _) ++ _ = _ => exists h; apply append_assoc
    end.
  - intros item Hin.
    assert (Hlis : includes (list_item item) lis = true).
    { apply includes_join. now apply in_map. }
    apply includes_app_l. now apply includes_app_r.
  - clearbody lis. apply includes_app_l, includes_app_l, includes_app_l.
    found (LF ++ "    ")
      (LF ++ "    <p><strong>Spray volume:</strong> "
         ++ interpolate (MixObject.sprayVolume results)
         ++ " gal per 1,000 sq ft</p>" ++ LF
         ++ "    <p><strong>Estimated coverage:</strong> "
         ++ toFixed coverage 0 ++ " sq ft</p>" ++ LF ++ "  ").
  - clearbody lis. apply includes_app_l, includes_app_l, includes_app_l.
    found (LF ++ "    <p><strong>Tank size:</strong> "
             ++ interpolate (MixObject.tankSize results) ++ " gallons</p>"
             ++ LF ++ "    <p><strong>Spray volume:</strong> "
             ++ interpolate (MixObject.sprayVolume results)
             ++ " gal per 1,000 sq ft</p>" ++ LF ++ "    ")
      (LF ++ "  ").
Qed.

(** The summary of a fallback item and a computed item, as the unit test
    builds it by hand (no [id], no [mixText]). *)
Lemma formatMix_renders_items_case :
  let items := [FallbackItem "" "Chemical 2" "See label";
                ComputedItem "" "Chemical 1" 2%float 50%float
                  1478.5%float] in
  let results :=
    {| MixObject.error := None;
       MixObject.tankSize := Some 25%float;
       MixObject.sprayVolume := Some 1%float;
       MixObject.estimatedCoverageSqFt := Some 25000%float;
       MixObject.mixItems := Some items;
       MixObject.mixText := None |} in
  exists html,
    formatMixResultsHTML results = Returns html /\
    includes "<li>Chemical 2: See label</li><li>" html = true /\
    includes "<p><strong>Tank size:</strong> 25 gallons</p>" html = true /\
    includes "<p><strong>Estimated coverage:</strong> 25000 sq ft</p>" html
      = true.
Proof.
  intros items results.
  destruct (formatMix_renders_items results 25000%float items
              eq_refl eq_refl eq_refl)
    as [html [Hhtml [_ [_ [Htank Hcoverage]]]]].
  exists html. split; [exact Hhtml |].
  split; [injection Hhtml as <-; reflexivity |].
  split; [exact Htank | exact Hcoverage].
Defined.

(** X7: properties a formatter cannot do without. On an object whose
    [error] is missing or empty, [formatMixResultsHTML] throws when
    [estimatedCoverageSqFt] or [mixItems] is missing, and
    [formatGranularResultsHTML] throws when [areaSqFt], [areaThousands] or
    [totalLbs] is missing. [ratePerThousandSqFt] is only interpolated:
    when the other three are Numbers and the rate is missing, the
    formatter returns, with the text [undefined] where the rate goes. *)
Theorem formatters_missing_properties :
  (forall results,
     truthy_property results.(MixObject.error) = false ->
     results.(MixObject.estimatedCoverageSqFt) = None \/
     results.(MixObject.mixItems) = None ->
     formatMixResultsHTML results = ThrowsTypeError) /\
  (forall results,
     truthy_property results.(GranularObject.error) = false ->
     results.(GranularObject.areaSqFt) = None \/
     results.(GranularObject.areaThousands) = None \/
     results.(GranularObject.totalLbs) = None ->
     formatGranularResultsHTML results = ThrowsTypeError) /\
  (forall results area thousands total,
     truthy_property results.(GranularObject.error) = false ->
     results.(GranularObject.areaSqFt) = Some area ->
     results.(GranularObject.areaThousands) = Some thousands ->
     results.(GranularObject.totalLbs) = Some total ->
     results.(GranularObject.ratePerThousandSqFt) = None ->
     exists html,
       formatGranularResultsHTML results = Returns html /\
       includes "<p><strong>Rate:</strong> undefined lbs per 1,000 sq ft</p>"
         html = true).
Proof.
  split; [| split].
  - intros [error tank spray coverage items text].
    unfold formatMixResultsHTML. cbn [MixObject.error
      MixObject.estimatedCoverageSqFt MixObject.mixItems].
    intros -> [-> | ->]; [reflexivity |].
    destruct coverage; reflexivity.
  - intros [error name area thousands rate total].
    unfold formatGranularResultsHTML. cbn [GranularObject.error
      GranularObject.areaSqFt GranularObject.areaThousands
      GranularObject.totalLbs].
    intros -> [-> | [-> | ->]]; [reflexivity | |].
    + destruct area; reflexivity.
    + destruct area, thousands; reflexivity.
  - intros [error name area thousands rate total] a t l.
    unfold formatGranularResultsHTML. cbn [GranularObject.error
      GranularObject.productName GranularObject.areaSqFt
      GranularObject.areaThousands GranularObject.ratePerThousandSqFt
      GranularObject.totalLbs].
    intros -> -> -> -> ->. eexists. split; [reflexivity |].
    cbn [interpolate]. apply includes_app_r.
    found (LF ++ "    <p><strong>Area:</strong> " ++ toFixed a 0
             ++ " sq ft (" ++ toFixed t 2 ++ " × 1,000 sq ft)</p>"
             ++ LF ++ "    ")
      (LF ++ "    <p><strong>Total product needed:</strong> "
         ++ toFixed l 2 ++ " lbs</p>" ++ LF ++ "  ").
Qed.

(** A granular object without [ratePerThousandSqFt]: no throw, and the
    text [undefined] where the rate goes. *)
Lemma formatters_missing_properties_case :
  let results :=
    {| GranularObject.error := None;
       GranularObject.productName := None;
       GranularObject.areaSqFt := Some 5000%float;
       GranularObject.areaThousands := Some 5%float;
       GranularObject.ratePerThousandSqFt := None;
       GranularObject.totalLbs := Some 20%float |} in
  exists html,
    formatGranularResultsHTML results = Returns html /\
    includes "<p><strong>Rate:</strong> undefined lbs per 1,000 sq ft</p>"
      html = true.
Proof.
  intros results.
  exact (proj2 (proj2 formatters_missing_properties) results _ _ _
           eq_refl eq_refl eq_refl eq_refl eq_refl).
Defined.

End MixSummaryFacts.

(** ** The key check of the admin API *)

Module AuthFacts.

Import JS Calc Props Server RenderFacts.
#[local] Open Scope string_scope.







Lemma drop_length_app (a b : string) : drop (String.length a) (a ++ b) = b.
Proof.
  induction a as [| c a IH]; cbn; [now destruct b | exact IH].
Qed.

(** Removing a pattern from a string that starts with it leaves the
    rest. *)
Lemma replace_prefix (pattern rest : string) :
  replace pattern "" (pattern ++ rest) = rest.
Proof.
  assert (Hunfold : forall s,
    replace pattern "" s =
      if prefix pattern s then "" ++ drop (String.length pattern) s
      else match s with
           | EmptyString => EmptyString
           | String c s' => String c (replace pattern "" s')
           end) by (intros [| c s]; reflexivity).
  rewrite Hunfold, prefix_app, drop_length_app. reflexivity.
Qed.

(** X10: the two ways to present the key, and which one counts: a request with
    no [X-Admin-API-Key] passes on [Authorization: Bearer <key>]; a request
    whose [X-Admin-API-Key] is the key passes whatever its [Authorization];
    and a request whose [X-Admin-API-Key] is another non-empty text is
    refused with 403 even when its [Authorization] carries the key. *)
Theorem requireAdminAuth_header_precedence
    (key other : string) (anything : option string) :
  key <> "" -> other <> "" -> other <> key ->
  requireAdminAuth (Some key)
    {| x_admin_api_key := None;
       authorization := Some ("Bearer " ++ key) |} = Next false /\
  requireAdminAuth (Some key)
    {| x_admin_api_key := Some "";
       authorization := Some ("Bearer " ++ key) |} = Next false /\
  requireAdminAuth (Some key)
    {| x_admin_api_key := Some key; authorization := anything |} =
    Next false /\
  requireAdminAuth (Some key)
    {| x_admin_api_key := Some other;
       authorization := Some ("Bearer " ++ key) |} =
    Respond 403 "Forbidden" "Invalid API key".
Proof.
  intros Hkey Hother Hdiff.
  assert (Hbearer : replace "Bearer " "" ("Bearer " ++ key) = key)
    by apply replace_prefix.
  destruct key as [| k key]; [now contradiction Hkey |].
  destruct other as [| o other]; [now contradiction Hother |].
  unfold requireAdminAuth, providedKey.
  cbn [truthy_property truthy_string negb x_admin_api_key authorization
       option_map].
  rewrite Hbearer. cbn [truthy_property truthy_string negb same_key].
  rewrite String.eqb_refl. cbn [negb].
  assert (Hneq : String.eqb (String o other) (String k key) = false).
  { apply String.eqb_neq. exact Hdiff. }
  rewrite Hneq. repeat split.
Qed.

Lemma requireAdminAuth_header_precedence_case :
  "s3cret" <> "" /\ "guess" <> "" /\ "guess" <> "s3cret" /\
  requireAdminAuth (Some "s3cret")
    {| x_admin_api_key := Some "guess";
       authorization := Some "Bearer s3cret" |} =
    Respond 403 "Forbidden" "Invalid API key".
Proof.
  split; [discriminate | split; [discriminate | split; [discriminate |]]].
  apply (requireAdminAuth_header_precedence "s3cret" "guess" None);
    discriminate.
Defined.

End AuthFacts.

(** ** Looking plants up *)

Module PlantFacts.

Import JS Calc Props PlantUtils CatalogTerms RenderFacts SummaryFacts.
#[local] Open Scope string_scope.
#[local] Open Scope list_scope.

(** What [find] returns is the first element that passes the test. *)
Lemma find_first {A : Type} (test : A -> bool) (l : list A) (x : A) :
  find test l = Some x ->
  test x = true /\
  exists before after,
    l = before ++ x :: after /\
    forall y, In y before -> test y = false.
Proof.
  induction l as [| a l IH]; [discriminate |]. cbn [find].
  destruct (test a) eqn:Ha.
  - intros [= <-]. split; [exact Ha |].
    exists [], l. split; [reflexivity | contradiction].
  - intros H. destruct (IH H) as [Hx [before [after [-> Hbefore]]]].
    split; [exact Hx |]. exists (a :: before), after.
    split; [reflexivity |]. intros y [<- | Hy]; auto.
Qed.

Lemma getPlantByIdSync_id
    (plantsMaster : option (list plant)) (id : value) (p : plant) :
  getPlantByIdSync plantsMaster id = Some p ->
  ToBoolean id = true /\ strict_equal p.(plantId) id = true.
Proof.
  unfold getPlantByIdSync. destruct (ToBoolean id); [| discriminate].
  cbn [negb]. intros H. split; [reflexivity |].
  exact (proj1 (find_first _ _ _ H)).
Qed.

(** X11: A plant returned by [getPlantByIdSync] is the first plant of the
    catalog whose [plantId] is strictly equal to the one asked for, and
    the id asked for is truthy. *)
Theorem getPlantByIdSync_found
    (plantsMaster : option (list plant)) (id : value) (p : plant) :
  getPlantByIdSync plantsMaster id = Some p ->
  ToBoolean id = true /\
  strict_equal p.(plantId) id = true /\
  exists before after,
    getAllPlantsSync plantsMaster = before ++ p :: after /\
    forall q, In q before -> strict_equal q.(plantId) id = false.
Proof.
  intros H. destruct (getPlantByIdSync_id _ _ _ H) as [Hid Hp].
  split; [exact Hid | split; [exact Hp |]].
  unfold getPlantByIdSync in H. rewrite Hid in H. cbn [negb] in H.
  exact (proj2 (find_first _ _ _ H)).
Qed.

Lemma getPlantByIdSync_found_case :
  let rose := entry (VString "rose") (Some "Rose") None (Prim VUndefined) in
  let twin := entry (VString "rose") (Some "Other") None (Prim VUndefined) in
  let fern := entry (VString "fern") (Some "Fern") None (Prim VUndefined) in
  getPlantByIdSync (Some [fern; rose; twin]) (VString "rose") = Some rose /\
  exists before after,
    [fern; rose; twin] = before ++ rose :: after /\
    forall q, In q before -> strict_equal q.(plantId) (VString "rose") = false.
Proof.
  intros rose twin fern. split; [reflexivity |].
  exact (proj2 (proj2 (getPlantByIdSync_found (Some [fern; rose; twin])
                         (VString "rose") rose eq_refl))).
Defined.

(** X12: [getPlantByIdSync] returns [null] exactly when the id asked for is
    falsy (missing, empty, zero, NaN) or no plant of the catalog has it: a
    plant whose [plantId] is the empty string or 0 cannot be looked up,
    and with a catalog that is not an array nothing can. *)
Theorem getPlantByIdSync_null_iff
    (plantsMaster : option (list plant)) (id : value) :
  (getPlantByIdSync plantsMaster id = None <->
   ToBoolean id = false \/
   forall q, In q (getAllPlantsSync plantsMaster) ->
     strict_equal q.(plantId) id = false) /\
  (ToBoolean id = false -> getPlantByIdSync plantsMaster id = None) /\
  getPlantByIdSync None id = None.
Proof.
  unfold getPlantByIdSync. split; [| split].
  - destruct (ToBoolean id); cbn [negb]; [| now split; auto].
    split.
    + intros H. right. intros q Hq.
      exact (find_none _ _ H q Hq).
    + intros [H | H]; [discriminate |].
      destruct (find _ _) as [p |] eqn:Hfind; [| reflexivity].
      apply find_some in Hfind as [Hin Hp]. rewrite (H p Hin) in Hp.
      discriminate.
  - intros ->. reflexivity.
  - destruct (ToBoolean id); reflexivity.
Qed.

(** X13: [ensureArray] always gives an array that it would leave alone: an
    array comes back as it is, empty or not, a truthy value comes back
    wrapped, and a falsy value (missing, [null], [false], 0, NaN, the
    empty string) comes back as the empty array, so that the result is
    empty exactly for a falsy value or an empty array. *)
Theorem ensureArray_normalises (value : property) :
  ensureArray (Arr (ensureArray value)) = ensureArray value /\
  (ensureArray value = [] <-> truthy value = false \/ value = Arr []) /\
  (forall v, value = Prim v -> ToBoolean v = true -> ensureArray value = [v]) /\
  (forall items, value = Arr items -> ensureArray value = items).
Proof.
  unfold ensureArray. split; [| split; [split |]; [| | split]].
  - destruct value as [v | items]; cbn [truthy negb]; [| reflexivity].
    destruct (ToBoolean v); reflexivity.
  - destruct value as [v | items]; cbn [truthy negb].
    + destruct (ToBoolean v); cbn [negb]; [discriminate | now left].
    + intros ->. now right.
  - intros [H | ->]; [now rewrite H | reflexivity].
  - intros v -> Hv. cbn [truthy]. now rewrite Hv.
  - intros items ->. reflexivity.
Qed.

(** X14: A profile exists exactly when the lookup succeeds. Its [plantId] is
    strictly equal to the one asked for; its names are [null] or a
    non-empty text and its tolerances [null] or a truthy value, so that no
    empty string, zero, [false] or [undefined] reaches the profile. *)
Theorem getDiagnosticProfileSync_profile
    (plantsMaster : option (list plant)) (id : value) :
  (getDiagnosticProfileSync plantsMaster id = None <->
   getPlantByIdSync plantsMaster id = None) /\
  (forall profile,
     getDiagnosticProfileSync plantsMaster id = Some profile ->
     strict_equal profile.(Profile.plantId) id = true /\
     null_or_text profile.(Profile.commonName) /\
     null_or_text profile.(Profile.botanicalName) /\
     Forall null_or_truthy
       [profile.(Profile.heatTolerance); profile.(Profile.coldTolerance);
        profile.(Profile.droughtTolerance); profile.(Profile.saltTolerance);
        profile.(Profile.petSafety); profile.(Profile.pollinatorValue);
        profile.(Profile.deerResistance)]).
Proof.
  assert (Hnull : forall v, null_or_truthy (or_null v)).
  { intros v. unfold or_null, null_or_truthy.
    destruct (ToBoolean v) eqn:Hv; auto. }
  assert (Htext : forall text, null_or_text (text_or_null text)).
  { intros [[| c s] |]; unfold text_or_null, null_or_text; cbn; auto.
    right. eexists. split; [reflexivity | discriminate]. }
  unfold getDiagnosticProfileSync. split.
  - destruct (getPlantByIdSync plantsMaster id); split;
      try discriminate; reflexivity.
  - intros profile.
    destruct (getPlantByIdSync plantsMaster id) as [plant |] eqn:Hfind;
      [| discriminate].
    intros [= <-]. cbn.
    destruct (getPlantByIdSync_id _ _ _ Hfind) as [_ Hid].
    split; [exact Hid | split; [apply Htext | split; [apply Htext |]]].
    repeat (apply Forall_cons; [apply Hnull |]). apply Forall_nil.
Qed.

Lemma getDiagnosticProfileSync_profile_case :
  let rose :=
    {| plantId := VString "rose";
       commonName := Some "Rose";
       botanicalName := Some "";
       synonyms := Prim VUndefined;
       commonPests := Prim (VString "aphids");
       commonDiseases := Arr [VString "black spot"; VString "rust"];
       commonAbioticIssues := Prim VUndefined;
       symptomPatterns := Prim (VString "spots");
       heatTolerance := VString "high";
       coldTolerance := VNumber 0%float;
       droughtTolerance := VString "";
       saltTolerance := VUndefined;
       petSafety := VBool false;
       pollinatorValue := VNull;
       deerResistance := VBool true;
       categories := None;
       isNative := VUndefined;
       isEdible := VUndefined;
       isHouseplant := VUndefined |} in
  exists profile,
    getDiagnosticProfileSync (Some [rose]) (VString "rose") = Some profile /\
    profile.(Profile.botanicalName) = None /\
    profile.(Profile.commonPests) = [VString "aphids"] /\
    profile.(Profile.symptomPatterns) = [] /\
    profile.(Profile.coldTolerance) = VNull /\
    profile.(Profile.petSafety) = VNull /\
    null_or_text profile.(Profile.commonName).
Proof.
  intros rose. eexists. split; [reflexivity |].
  repeat (split; [reflexivity |]).
  exact (proj1 (proj2 (proj2 (getDiagnosticProfileSync_profile
                                (Some [rose]) (VString "rose")) _ eq_refl))).
Defined.

End PlantFacts.

(** ** Searching the catalog *)

Module SearchFacts.

Import JS Calc Props PlantUtils CatalogTerms RenderFacts SummaryFacts.
Import PlantFacts.
#[local] Open Scope string_scope.
#[local] Open Scope list_scope.

Lemma filter_subsequence {A : Type} (test : A -> bool) (l : list A) :
  subsequence (filter test l) l.
Proof.
  induction l as [| x l IH]; cbn [filter]; [constructor |].
  destruct (test x); now constructor.
Qed.

Lemma subsequence_refl {A : Type} (l : list A) : subsequence l l.
Proof. induction l; now constructor. Qed.

Lemma truthy_string_false (s : string) : truthy_string s = false <-> s = "".
Proof. destruct s; cbn; split; congruence. Qed.

Section Engine.

Variable trim : string -> string.
Variable toLowerCase : string -> string.

(** X15: every query returns plants of the catalog in catalog order, none
    added and none repeated: the search, the category filter and the three
    flag filters give a subsequence of the catalog, and the empty array
    when the catalog is not an array. *)
Theorem queries_return_subsequences
    (plantsMaster : option (list plant)) (text : option string) :
  subsequence (searchPlantsSync trim toLowerCase plantsMaster text)
    (getAllPlantsSync plantsMaster) /\
  subsequence (filterPlantsByCategorySync trim toLowerCase plantsMaster text)
    (getAllPlantsSync plantsMaster) /\
  subsequence (getNativePlantsSync plantsMaster)
    (getAllPlantsSync plantsMaster) /\
  subsequence (getEdiblePlantsSync plantsMaster)
    (getAllPlantsSync plantsMaster) /\
  subsequence (getHouseplantsSync plantsMaster)
    (getAllPlantsSync plantsMaster) /\
  searchPlantsSync trim toLowerCase None text = [] /\
  filterPlantsByCategorySync trim toLowerCase None text = [] /\
  getNativePlantsSync None = [] /\
  getEdiblePlantsSync None = [] /\
  getHouseplantsSync None = [].
Proof.
  unfold searchPlantsSync, filterPlantsByCategorySync, getNativePlantsSync,
    getEdiblePlantsSync, getHouseplantsSync.
  repeat split; try apply filter_subsequence;
    try (destruct (negb (truthy_string _));
         [apply subsequence_refl | apply filter_subsequence]);
    try reflexivity;
    destruct (negb (truthy_string _)); reflexivity.
Qed.

(** A plant that matches the term exactly also matches it as a search
    result. *)
Lemma isExactMatch_matchesTerm (t : string) (p : plant) :
  isExactMatch toLowerCase t p = true -> matchesTerm toLowerCase t p = true.
Proof.
  unfold isExactMatch, matchesTerm. intros H.
  apply orb_prop in H as [H | H]; apply String.eqb_eq in H; rewrite H,
    includes_refl; [reflexivity | now rewrite orb_true_r].
Qed.

Lemma best_match_cases
    (plantsMaster : option (list plant)) (term : option string) (p : plant) :
  findBestPlantMatchSync trim toLowerCase plantsMaster term = Some p ->
  normalize trim toLowerCase term <> "" /\
  In p (searchPlantsSync trim toLowerCase plantsMaster term) /\
  (isExactMatch toLowerCase (normalize trim toLowerCase term) p = true \/
   (forall q, In q (getAllPlantsSync plantsMaster) ->
      isExactMatch toLowerCase (normalize trim toLowerCase term) q = false) /\
   exists rest,
     searchPlantsSync trim toLowerCase plantsMaster term = p :: rest).
Proof.
  unfold findBestPlantMatchSync.
  set (t := normalize trim toLowerCase term).
  destruct (truthy_string t) eqn:Ht; cbn [negb]; [| discriminate].
  assert (Hsearch : searchPlantsSync trim toLowerCase plantsMaster term =
                    filter (matchesTerm toLowerCase t)
                      (getAllPlantsSync plantsMaster)).
  { unfold searchPlantsSync. fold t. now rewrite Ht. }
  destruct (List.length (getAllPlantsSync plantsMaster) =? 0)%nat;
    [discriminate |].
  assert (Hblank : t <> "") by (intros H; rewrite H in Ht; discriminate).
  destruct (find (isExactMatch toLowerCase t) _) as [exact |] eqn:Hfind.
  - intros [= <-]. apply find_some in Hfind as [Hin Hexact].
    split; [exact Hblank |]. split; [| now left].
    rewrite Hsearch. apply filter_In. split; [exact Hin |].
    now apply isExactMatch_matchesTerm.
  - destruct (searchPlantsSync trim toLowerCase plantsMaster term)
      as [| first rest] eqn:Hresults; [discriminate |].
    intros [= <-]. split; [exact Hblank |]. split; [now left |].
    right. split; [| now exists rest].
    intros q Hq. exact (find_none _ _ Hfind q Hq).
Qed.

(** X16: the best match is one of the search results: whenever
    [findBestPlantMatchSync] returns a plant, the term is not blank and
    [searchPlantsSync] returns that plant too; it is a plant whose common
    or botanical name is the term, or else, when there is no such plant,
    the first search result. *)
Theorem findBestPlantMatchSync_among_results
    (plantsMaster : option (list plant)) (term : option string) (p : plant) :
  findBestPlantMatchSync trim toLowerCase plantsMaster term = Some p ->
  normalize trim toLowerCase term <> "" /\
  In p (searchPlantsSync trim toLowerCase plantsMaster term) /\
  (isExactMatch toLowerCase (normalize trim toLowerCase term) p = true \/
   (forall q, In q (getAllPlantsSync plantsMaster) ->
      isExactMatch toLowerCase (normalize trim toLowerCase term) q = false) /\
   exists rest,
     searchPlantsSync trim toLowerCase plantsMaster term = p :: rest).
Proof. exact (best_match_cases plantsMaster term p). Qed.

(** X17: an exact match wins over an earlier partial match: when the term is
    not blank and some plant of the catalog has it as its common or
    botanical name, the plant returned is the first such plant, whatever
    plants before it merely include the term. *)
Theorem findBestPlantMatchSync_prefers_exact
    (plantsMaster : option (list plant)) (term : option string) (q : plant) :
  normalize trim toLowerCase term <> "" ->
  In q (getAllPlantsSync plantsMaster) ->
  isExactMatch toLowerCase (normalize trim toLowerCase term) q = true ->
  exists p before after,
    findBestPlantMatchSync trim toLowerCase plantsMaster term = Some p /\
    isExactMatch toLowerCase (normalize trim toLowerCase term) p = true /\
    getAllPlantsSync plantsMaster = before ++ p :: after /\
    forall r, In r before ->
      isExactMatch toLowerCase (normalize trim toLowerCase term) r = false.
Proof.
  unfold findBestPlantMatchSync.
  set (t := normalize trim toLowerCase term). intros Hblank Hin Hexact.
  destruct (truthy_string t) eqn:Ht; cbn [negb].
  2: { apply truthy_string_false in Ht. contradiction. }
  destruct (getAllPlantsSync plantsMaster) as [| first plants] eqn:Hall;
    [contradiction |].
  cbn [List.length Nat.eqb].
  destruct (find (isExactMatch toLowerCase t) (first :: plants))
    as [p |] eqn:Hfind.
  - destruct (find_first _ _ _ Hfind) as [Hp [before [after [Heq Hbefore]]]].
    exists p, before, after. auto.
  - rewrite (find_none _ _ Hfind q Hin) in Hexact. discriminate.
Qed.

(** X18: [findBestPlantMatchSync] returns [null] exactly when the term is blank
    (missing, empty, or trimmed to nothing) or the search has no result;
    in particular on an empty catalog. *)
Theorem findBestPlantMatchSync_null_iff
    (plantsMaster : option (list plant)) (term : option string) :
  findBestPlantMatchSync trim toLowerCase plantsMaster term = None <->
  normalize trim toLowerCase term = "" \/
  searchPlantsSync trim toLowerCase plantsMaster term = [].
Proof.
  split.
  - intros Hnone.
    destruct (string_dec (normalize trim toLowerCase term) "") as [| Hblank];
      [now left | right].
    destruct (searchPlantsSync trim toLowerCase plantsMaster term)
      as [| first rest] eqn:Hresults; [reflexivity |].
    exfalso. revert Hnone. unfold findBestPlantMatchSync.
    destruct (truthy_string (normalize trim toLowerCase term)) eqn:Ht;
      cbn [negb].
    2: { apply truthy_string_false in Ht. contradiction. }
    destruct (getAllPlantsSync plantsMaster) as [| x plants] eqn:Hall.
    + unfold searchPlantsSync in Hresults. rewrite Ht, Hall in Hresults.
      discriminate.
    + cbn [List.length Nat.eqb]. rewrite Hresults.
      destruct (find _ _); discriminate.
  - intros [Hblank | Hempty].
    + unfold findBestPlantMatchSync. now rewrite Hblank.
    + destruct (findBestPlantMatchSync trim toLowerCase plantsMaster term)
        as [p |] eqn:Hbest; [| reflexivity].
      apply best_match_cases in Hbest as [_ [Hin _]].
      rewrite Hempty in Hin. contradiction.
Qed.

End Engine.


(** A catalog with "rosemary" before "rose", searched for ["rose"] by an
    engine whose [trim] and [toLowerCase] leave these texts alone: the
    exact match is returned, though it is the second search result. *)
Lemma findBestPlantMatchSync_prefers_exact_case :
  let same := fun s : string => s in
  let rosemary :=
    entry (VString "p1") (Some "rosemary") None (Prim VUndefined) in
  let rose := entry (VString "p2") (Some "rose") None (Prim VUndefined) in
  let catalog := Some [rosemary; rose] in
  normalize same same (Some "rose") <> "" /\
  In rose (getAllPlantsSync catalog) /\
  isExactMatch same (normalize same same (Some "rose")) rose = true /\
  searchPlantsSync same same catalog (Some "rose") = [rosemary; rose] /\
  findBestPlantMatchSync same same catalog (Some "rose") = Some rose /\
  exists p before after,
    findBestPlantMatchSync same same catalog (Some "rose") = Some p /\
    isExactMatch same "rose" p = true /\
    [rosemary; rose] = before ++ p :: after /\
    forall r, In r before -> isExactMatch same "rose" r = false.
Proof.
  intros same rosemary rose catalog.
  assert (Hin : In rose (getAllPlantsSync catalog))
    by (right; left; reflexivity).
  split; [discriminate | split; [exact Hin | split; [reflexivity |]]].
  split; [reflexivity | split; [reflexivity |]].
  apply (findBestPlantMatchSync_prefers_exact same same catalog
           (Some "rose") rose); [discriminate | exact Hin | reflexivity].
Defined.

(** With no exact match the first search result is returned: the synonym
    of the second plant includes the term. *)
Lemma findBestPlantMatchSync_among_results_case :
  let same := fun s : string => s in
  let fern := entry (VString "p1") (Some "fern") None (Prim VUndefined) in
  let mint :=
    entry (VString "p2") (Some "mint") (Some "mentha")
      (Arr [VString "garden mint"; VNull; VString "spearmint"]) in
  let catalog := Some [fern; mint] in
  findBestPlantMatchSync same same catalog (Some "spear") = Some mint /\
  normalize same same (Some "spear") <> "" /\
  In mint (searchPlantsSync same same catalog (Some "spear")).
Proof.
  intros same fern mint catalog. split; [reflexivity |].
  destruct (findBestPlantMatchSync_among_results same same catalog
              (Some "spear") mint eq_refl) as [Hblank [Hin _]].
  split; [exact Hblank | exact Hin].
Defined.

End SearchFacts.
